(** * FHIR bundle to QRDA Category I document: the assembler of
    [packages/ccda/src/fhir-to-qrda.ts], with the template tables of
    [qrda-templates.ts] and the vocabulary constants of [qrda-systems.ts].

    The converter builds a tree of JavaScript object literals.  It reads the
    clock once, draws fresh identifiers from [generateId], and formats
    timestamps with [mapFhirToCcdaDateTime]; the first two are threaded as
    explicit state, and every call can complete abruptly with a thrown
    [Error]. *)

From Stdlib Require Import String Ascii List Bool.
Import ListNotations.
Local Open Scope list_scope.
Local Open Scope string_scope.

Set Implicit Arguments.
Set Warnings "-register-all".

(** ** JavaScript values *)

(** The output is typed [Record<string, any>]: object literals whose keys keep
    their source order (the renderer emits them in that order), arrays,
    strings and [undefined]. *)
Inductive JsValue : Type :=
| JUndefined
| JString (s : string)
| JArray (items : list JsValue)
| JObject (props : list (string * JsValue)).

Coercion JString : string >-> JsValue.

Declare Scope js_scope.
Delimit Scope js_scope with js.
Notation "k :-> v" := (k%string, (v : JsValue)) (at level 69, no associativity) : js_scope.
Local Open Scope js_scope.

(** A [string | undefined] stored as a property value. *)
Definition ofOptional (x : option string) : JsValue :=
  match x with
  | Some s => JString s
  | None => JUndefined
  end.

(** [ToString] as applied by template literals and by [+] with a string. *)
Definition ToString (x : option string) : string :=
  match x with
  | Some s => s
  | None => "undefined"
  end.

(** [x ?? d] on [string | undefined]. *)
Definition nullish (x : option string) (d : string) : string :=
  match x with
  | Some s => s
  | None => d
  end.

(** [x || d] on [string | undefined]: the empty string is falsy too. *)
Definition orElse (x : option string) (d : string) : string :=
  match x with
  | Some s => if (s =? "")%string then d else s
  | None => d
  end.

(** [a?.f] where [f] itself is optional. *)
Definition optChain {A B : Type} (a : option A) (f : A -> option B) : option B :=
  match a with
  | Some x => f x
  | None => None
  end.

(** [xs?.[0]] *)
Definition first {A : Type} (xs : option (list A)) : option A :=
  optChain xs (@hd_error A).

(** [xs?.find(p)] *)
Definition findIn {A : Type} (p : A -> bool) (xs : option (list A)) : option A :=
  optChain xs (find p).

(** [xs.filter(Boolean)] on an array of objects and [undefined]s. *)
Definition Boolean (v : JsValue) : bool :=
  match v with
  | JUndefined => false
  | JString s => negb (s =? "")%string
  | JArray _ | JObject _ => true
  end.

(** Property read on a value; [None] when the key is not there. *)
Fixpoint lookup (k : string) (props : list (string * JsValue)) : option JsValue :=
  match props with
  | [] => None
  | (k', v) :: rest => if (k =? k')%string then Some v else lookup k rest
  end.

Definition prop (k : string) (v : JsValue) : option JsValue :=
  match v with
  | JObject props => lookup k props
  | _ => None
  end.

Fixpoint path (ks : list string) (v : JsValue) : option JsValue :=
  match ks with
  | [] => Some v
  | k :: rest =>
      match prop k v with
      | Some v' => path rest v'
      | None => None
      end
  end.

Definition items (v : JsValue) : option (list JsValue) :=
  match v with
  | JArray xs => Some xs
  | _ => None
  end.

(** ** Abrupt completion and the state of the collaborators *)

Inductive JsError : Type :=
| Error (message : string).

Inductive Completion (A : Type) : Type :=
| Normal (a : A)
| Throw (e : JsError).

Arguments Normal {A} a.
Arguments Throw {A} e.

Definition Js (World A : Type) : Type := World -> Completion A * World.

Definition ret {World A : Type} (a : A) : Js World A :=
  fun w => (Normal a, w).

Definition bind {World A B : Type} (m : Js World A) (k : A -> Js World B) : Js World B :=
  fun w =>
    match m w with
    | (Normal a, w') => k a w'
    | (Throw e, w') => (Throw e, w')
    end.

Definition liftCompletion {World A : Type} (c : Completion A) : Js World A :=
  fun w => (c, w).

Definition liftEffect {World A : Type} (f : World -> A * World) : Js World A :=
  fun w => (Normal (fst (f w)), snd (f w)).

Notation "x <- m ;; k" := (bind m (fun x => k))
  (at level 61, m at next level, right associativity) : js_scope.

(** ** FHIR input types (the fields the converter reads) *)

Module fhirtypes.

Record HumanName : Type := {
  given : option (list string);
  family : option string;
}.

Record Address : Type := {
  line : option (list string);
  city : option string;
  state : option string;
  postalCode : option string;
  country : option string;
}.

Record ContactPoint : Type := {
  system : option string;
  value : option string;
}.

(** A bundled resource.  [findResource] selects on [resourceType] and casts
    the hit to [Patient] unchecked, so one record carries the tag together
    with the Patient fields that are read afterwards. *)
Record Resource : Type := {
  resourceType : string;
  id : option string;
  name : option (list HumanName);
  address : option (list Address);
  telecom : option (list ContactPoint);
  gender : option string;
  birthDate : option string;
}.

Definition Patient : Type := Resource.

Record BundleEntry : Type := {
  resource : option Resource;
}.

Record Bundle : Type := {
  entry : option (list BundleEntry);
}.

End fhirtypes.

(** ** Conversion options: [FhirToQrdaOptions] *)

Module Measure.
Record t : Type := {
  id : option string;
  title : option string;
  version : option string;
  setId : option string;
}.
End Measure.

Module ReportingPeriod.
Record t : Type := {
  start : string;
  end_ : string;
}.
End ReportingPeriod.

Module OrganizationAddress.
Record t : Type := {
  line : option string;
  city : option string;
  state : option string;
  postalCode : option string;
  country : option string;
}.
End OrganizationAddress.

Module Organization.
Record t : Type := {
  name : option string;
  id : option string;
  npi : option string;
  address : option OrganizationAddress.t;
}.
End Organization.

Module Author.
Record t : Type := {
  name : option string;
  npi : option string;
}.
End Author.

Inductive Category : Type :=
| CategoryI
| CategoryIII.

Record FhirToQrdaOptions : Type := {
  category : option Category;
  measure : option Measure.t;
  reportingPeriod : ReportingPeriod.t;
  organization : option Organization.t;
  author : option Author.t;
}.

(** ** Constants of modules that are imported by name: [./oids] and
    [./qrda-oids].  Their values are dotted-decimal identifiers declared
    elsewhere; the converter only copies them into the tree. *)

Class OidsModule : Type := {
  OID_HL7_REGISTERED_MODELS : string;
  OID_LOINC_CODE_SYSTEM : string;
  OID_US_REALM_CDA_HEADER : string;
}.

Class QrdaOidsModule : Type := {
  OID_CCN_SYSTEM : string;
  OID_CMS_EHR_CERTIFICATION_NUMBER : string;
  OID_ECQM_VERSION_SPECIFIC_ID : string;
  OID_ITIN_ID : string;
  OID_ORGANIZATION_ID : string;
  OID_PATIENT_ID : string;
  OID_CMS_QRDA_CATEGORY_I : string;
  OID_EMEASURE_REFERENCE_QDM : string;
  OID_MEASURE_REFERENCE : string;
  OID_MEASURE_SECTION : string;
  OID_MEASURE_SECTION_QDM : string;
  OID_PATIENT_DATA_SECTION : string;
  OID_PATIENT_DATA_SECTION_QDM_V8 : string;
  OID_PATIENT_DATA_SECTION_QDM_V8_CMS : string;
  OID_QDM_BASED_QRDA : string;
  OID_QRDA_CATEGORY_I : string;
  OID_REPORTING_PARAMETERS_ACT : string;
  OID_REPORTING_PARAMETERS_ACT_CMS : string;
  OID_REPORTING_PARAMETERS_SECTION : string;
  OID_REPORTING_PARAMETERS_SECTION_CMS : string;
}.

(** The three collaborators the converter calls: [generateId] of
    [@medplum/core], [new Date().toISOString()], and
    [mapFhirToCcdaDateTime] of [./datetime].  The first two act on the
    outside world; the formatter is a function of its argument and may
    throw on a string it cannot read. *)
Class Collaborators (World : Type) : Type := {
  generateId : World -> string * World;
  newDateToISOString : World -> string * World;
  mapFhirToCcdaDateTime : string -> Completion JsValue;
}.

(** ** [qrda-systems.ts] *)

Definition LOINC_DIAGNOSIS : string := "29308-4".
Definition LOINC_MEASURE_DOCUMENT : string := "55186-1".
Definition LOINC_PATIENT_DATA : string := "55188-7".
Definition LOINC_PAYMENT_SOURCE : string := "48768-6".
Definition LOINC_QUALITY_MEASURE_REPORT : string := "55182-0".
Definition LOINC_REASON_CARE_ACTION : string := "77301-0".
Definition LOINC_REPORTING_PARAMETERS : string := "55187-9".

Definition SNOMED_DIAGNOSIS_INTERPRETATION : string := "282291009".
Definition SNOMED_OBSERVATION_PARAMETERS : string := "252116004".
Definition SNOMED_RANK : string := "263486008".

Definition CMS68V14_MEASURE_GUID : string := "9A032D9C-3D9B-11E1-8634-00237D5BF174".

(** ** [qrda-templates.ts] *)

Section Templates.

Context {oids : OidsModule} {qrdaOids : QrdaOidsModule}.

Definition QRDA_CATEGORY_I_TEMPLATE_IDS : JsValue :=
  JArray [
    JObject ["@_root" :-> OID_US_REALM_CDA_HEADER; "@_extension" :-> "2015-08-01"];
    JObject ["@_root" :-> OID_QRDA_CATEGORY_I; "@_extension" :-> "2017-08-01"];
    JObject ["@_root" :-> OID_QDM_BASED_QRDA; "@_extension" :-> "2021-08-01"];
    JObject ["@_root" :-> OID_CMS_QRDA_CATEGORY_I; "@_extension" :-> "2022-02-01"]
  ].

Definition QRDA_MEASURE_SECTION_TEMPLATE_IDS : JsValue :=
  JArray [
    JObject ["@_root" :-> OID_MEASURE_SECTION];
    JObject ["@_root" :-> OID_MEASURE_SECTION_QDM]
  ].

Definition QRDA_REPORTING_PARAMETERS_TEMPLATE_IDS : JsValue :=
  JArray [
    JObject ["@_root" :-> OID_REPORTING_PARAMETERS_SECTION];
    JObject ["@_root" :-> OID_REPORTING_PARAMETERS_SECTION_CMS; "@_extension" :-> "2016-03-01"]
  ].

Definition QRDA_PATIENT_DATA_SECTION_TEMPLATE_IDS : JsValue :=
  JArray [
    JObject ["@_root" :-> OID_PATIENT_DATA_SECTION];
    JObject ["@_root" :-> OID_PATIENT_DATA_SECTION_QDM_V8; "@_extension" :-> "2021-08-01"];
    JObject ["@_root" :-> OID_PATIENT_DATA_SECTION_QDM_V8_CMS; "@_extension" :-> "2022-02-01"]
  ].

Definition QRDA_MEASURE_REFERENCE_TEMPLATE_IDS : JsValue :=
  JArray [
    JObject ["@_root" :-> OID_MEASURE_REFERENCE];
    JObject ["@_root" :-> OID_EMEASURE_REFERENCE_QDM]
  ].

Definition QRDA_REPORTING_PARAMETERS_ACT_TEMPLATE_IDS : JsValue :=
  JArray [
    JObject ["@_root" :-> OID_REPORTING_PARAMETERS_ACT];
    JObject ["@_root" :-> OID_REPORTING_PARAMETERS_ACT_CMS; "@_extension" :-> "2016-03-01"]
  ].

End Templates.

(** ** The converter: [class FhirToQrdaConverter] *)

Import fhirtypes.

Record FhirToQrdaConverter : Type := {
  bundle : Bundle;
  options : FhirToQrdaOptions;
  patient : Patient;
}.

(** [findResource]: the resource of the first entry whose resource has the
    requested type. *)
Definition hasResourceType (rt : string) (e : BundleEntry) : bool :=
  match resource e with
  | Some r => (resourceType r =? rt)%string
  | None => false
  end.

Definition findResource (b : Bundle) (rt : string) : option Resource :=
  optChain (findIn (hasResourceType rt) (entry b)) resource.

(** [findResourcesByType] *)
Definition findResourcesByType (b : Bundle) (rt : string) : list Resource :=
  match entry b with
  | Some es =>
      flat_map
        (fun e => match resource e with Some r => [r] | None => [] end)
        (filter (hasResourceType rt) es)
  | None => []
  end.

(** The constructor: stores its arguments, looks the patient up and throws
    when there is none. *)
Definition construct (b : Bundle) (o : FhirToQrdaOptions) : Completion FhirToQrdaConverter :=
  match findResource b "Patient" with
  | None => Throw (Error "Patient not found in bundle")
  | Some p => Normal {| bundle := b; options := o; patient := p |}
  end.

Definition isSystem (s : string) (t : ContactPoint) : bool :=
  match system t with
  | Some s' => (s' =? s)%string
  | None => false
  end.

(** [this.options.organization?.address] *)
Definition orgAddressOf (o : FhirToQrdaOptions) : option OrganizationAddress.t :=
  optChain (organization o) Organization.address.

Section Converter.

Context {oids : OidsModule} {qrdaOids : QrdaOidsModule}.
Context {World : Type} {collab : Collaborators World}.

Definition buildRecordTarget (this : FhirToQrdaConverter) : Js World JsValue :=
  let patientName := first (name (patient this)) in
  let address := first (fhirtypes.address (patient this)) in
  let telecom := findIn (isSystem "phone") (fhirtypes.telecom (patient this)) in
  let email := findIn (isSystem "email") (fhirtypes.telecom (patient this)) in
  let raceCode := "2106-3" in
  let ethnicityCode := "2135-2" in
  birthTime <- liftCompletion
                 (mapFhirToCcdaDateTime (ToString (birthDate (patient this)) ++ "T00:00:00.000Z")) ;;
  ret (JObject [
    "patientRole" :-> JObject [
      "id" :-> JObject [
        "@_extension" :-> ofOptional (id (patient this));
        "@_root" :-> OID_PATIENT_ID
      ];
      "addr" :->
        match address with
        | Some address =>
            JObject [
              "@_use" :-> "HP";
              "streetAddressLine" :-> nullish (first (line address)) "";
              "city" :-> nullish (city address) "";
              "state" :-> nullish (state address) "";
              "postalCode" :-> nullish (postalCode address) "";
              "country" :-> orElse (country address) "US"
            ]
        | None => JUndefined
        end;
      "telecom" :-> JArray (filter Boolean [
        match telecom with
        | Some telecom =>
            JObject ["@_use" :-> "HP"; "@_value" :-> "tel:" ++ ToString (value telecom)]
        | None => JUndefined
        end;
        match email with
        | Some email =>
            JObject ["@_use" :-> "HP"; "@_value" :-> "mailto:" ++ ToString (value email)]
        | None => JUndefined
        end
      ]);
      "patient" :-> JObject [
        "name" :-> JObject [
          "given" :-> nullish (first (optChain patientName given)) "";
          "family" :-> nullish (optChain patientName family) ""
        ];
        "administrativeGenderCode" :-> JObject [
          "@_code" :-> ofOptional (gender (patient this));
          "@_codeSystem" :-> "2.16.840.1.113883.5.1";
          "@_codeSystemName" :-> "AdministrativeGender"
        ];
        "birthTime" :-> JObject ["@_value" :-> birthTime];
        "raceCode" :-> JObject [
          "@_code" :-> raceCode;
          "@_codeSystem" :-> "2.16.840.1.113883.6.238";
          "@_codeSystemName" :-> "CDCREC"
        ];
        "ethnicGroupCode" :-> JObject [
          "@_code" :-> ethnicityCode;
          "@_codeSystem" :-> "2.16.840.1.113883.6.238";
          "@_codeSystemName" :-> "CDCREC"
        ];
        "languageCommunication" :-> JObject [
          "templateId" :-> JArray [
            JObject ["@_root" :-> "2.16.840.1.113883.3.88.11.83.2";
                     "@_assigningAuthorityName" :-> "HITSP/C83"];
            JObject ["@_root" :-> "1.3.6.1.4.1.19376.1.5.3.1.2.1";
                     "@_assigningAuthorityName" :-> "IHE/PCC"]
          ];
          "languageCode" :-> JObject ["@_code" :-> "eng"]
        ]
      ]
    ]
  ]).

Definition buildAuthor (this : FhirToQrdaConverter) (currentDateTime : string) : Js World JsValue :=
  let authorNpi := orElse (optChain (author (options this)) Author.npi) "1250504853" in
  let authorName := orElse (optChain (author (options this)) Author.name) "Medplum Test System" in
  let orgAddress := orgAddressOf (options this) in
  time <- liftCompletion (mapFhirToCcdaDateTime currentDateTime) ;;
  ret (JObject [
    "time" :-> JObject ["@_value" :-> time];
    "assignedAuthor" :-> JObject [
      "id" :-> JObject ["@_extension" :-> authorNpi; "@_root" :-> "2.16.840.1.113883.4.6"];
      "addr" :-> JObject [
        "streetAddressLine" :-> orElse (optChain orgAddress OrganizationAddress.line) "123 Happy St";
        "city" :-> orElse (optChain orgAddress OrganizationAddress.city) "Sunnyvale";
        "state" :-> orElse (optChain orgAddress OrganizationAddress.state) "CA";
        "postalCode" :-> orElse (optChain orgAddress OrganizationAddress.postalCode) "95008";
        "country" :-> orElse (optChain orgAddress OrganizationAddress.country) "US"
      ];
      "telecom" :-> JObject ["@_use" :-> "WP"; "@_value" :-> "tel:(781)271-3000"];
      "assignedAuthoringDevice" :-> JObject [
        "manufacturerModelName" :-> authorName;
        "softwareName" :-> authorName
      ]
    ]
  ]).

Definition buildCustodian (this : FhirToQrdaConverter) : JsValue :=
  let orgName := orElse (optChain (organization (options this)) Organization.name) "Medplum Test Deck" in
  let orgId := orElse (optChain (organization (options this)) Organization.id) "117323" in
  let orgAddress := orgAddressOf (options this) in
  JObject [
    "assignedCustodian" :-> JObject [
      "representedCustodianOrganization" :-> JObject [
        "id" :-> JObject ["@_extension" :-> orgId; "@_root" :-> OID_CCN_SYSTEM];
        "name" :-> orgName;
        "telecom" :-> JObject ["@_use" :-> "WP"; "@_value" :-> "tel:(781)271-3000"];
        "addr" :-> JObject [
          "@_use" :-> "HP";
          "streetAddressLine" :-> orElse (optChain orgAddress OrganizationAddress.line) "202 Burlington Rd.";
          "city" :-> orElse (optChain orgAddress OrganizationAddress.city) "Bedford";
          "state" :-> orElse (optChain orgAddress OrganizationAddress.state) "MA";
          "postalCode" :-> orElse (optChain orgAddress OrganizationAddress.postalCode) "01730";
          "country" :-> orElse (optChain orgAddress OrganizationAddress.country) "US"
        ]
      ]
    ]
  ].

Definition buildLegalAuthenticator (this : FhirToQrdaConverter) (currentDateTime : string)
  : Js World JsValue :=
  let orgAddress := orgAddressOf (options this) in
  time <- liftCompletion (mapFhirToCcdaDateTime currentDateTime) ;;
  entityId <- liftEffect generateId ;;
  ret (JObject [
    "time" :-> JObject ["@_value" :-> time];
    "signatureCode" :-> JObject ["@_code" :-> "S"];
    "assignedEntity" :-> JObject [
      "id" :-> JObject ["@_root" :-> entityId];
      "addr" :-> JObject [
        "streetAddressLine" :-> orElse (optChain orgAddress OrganizationAddress.line) "123 Happy St";
        "city" :-> orElse (optChain orgAddress OrganizationAddress.city) "Sunnyvale";
        "state" :-> orElse (optChain orgAddress OrganizationAddress.state) "CA";
        "postalCode" :-> orElse (optChain orgAddress OrganizationAddress.postalCode) "95008";
        "country" :-> orElse (optChain orgAddress OrganizationAddress.country) "US"
      ];
      "telecom" :-> JObject ["@_use" :-> "WP"; "@_value" :-> "tel:(781)271-3000"];
      "assignedPerson" :-> JObject [
        "name" :-> JObject ["given" :-> "John"; "family" :-> "Doe"]
      ];
      "representedOrganization" :-> JObject [
        "id" :-> JObject ["@_root" :-> OID_ORGANIZATION_ID];
        "name" :-> orElse (optChain (organization (options this)) Organization.name) "Medplum Test System"
      ]
    ]
  ]).

Definition buildParticipant (this : FhirToQrdaConverter) : JsValue :=
  JArray [
    JObject [
      "@_typeCode" :-> "DEV";
      "associatedEntity" :-> JObject [
        "@_classCode" :-> "RGPR";
        "id" :-> JObject ["@_extension" :-> "0015CPV4ZTB4WBU";
                          "@_root" :-> OID_CMS_EHR_CERTIFICATION_NUMBER]
      ]
    ]
  ].

Definition buildDocumentationOf (this : FhirToQrdaConverter) : JsValue :=
  let orgAddress := orgAddressOf (options this) in
  JObject [
    "@_typeCode" :-> "DOC";
    "serviceEvent" :-> JObject [
      "@_classCode" :-> "PCPR";
      "effectiveTime" :-> JObject [
        "low" :-> JObject ["@_nullFlavor" :-> "UNK"];
        "high" :-> JObject ["@_nullFlavor" :-> "UNK"]
      ];
      "performer" :-> JObject [
        "@_typeCode" :-> "PRF";
        "time" :-> JObject [
          "low" :-> JObject ["@_nullFlavor" :-> "UNK"];
          "high" :-> JObject ["@_nullFlavor" :-> "UNK"]
        ];
        "assignedEntity" :-> JObject [
          "id" :-> JArray [
            JObject ["@_extension" :-> orElse (optChain (author (options this)) Author.npi) "1250504853";
                     "@_root" :-> "2.16.840.1.113883.4.6"];
            JObject ["@_extension" :-> orElse (optChain (organization (options this)) Organization.id) "117323";
                     "@_root" :-> OID_CCN_SYSTEM]
          ];
          "code" :-> JObject [
            "@_code" :-> "207Q00000X";
            "@_codeSystem" :-> "2.16.840.1.113883.6.101";
            "@_codeSystemName" :-> "Healthcare Provider Taxonomy (HIPAA)"
          ];
          "addr" :-> JObject [
            "@_use" :-> "HP";
            "streetAddressLine" :-> orElse (optChain orgAddress OrganizationAddress.line) "202 Burlington Rd.";
            "city" :-> orElse (optChain orgAddress OrganizationAddress.city) "Bedford";
            "state" :-> orElse (optChain orgAddress OrganizationAddress.state) "MA";
            "postalCode" :-> orElse (optChain orgAddress OrganizationAddress.postalCode) "01730";
            "country" :-> orElse (optChain orgAddress OrganizationAddress.country) "US"
          ];
          "assignedPerson" :-> JObject [
            "name" :-> JObject ["given" :-> "Sylvia"; "family" :-> "Joseph"]
          ];
          "representedOrganization" :-> JObject [
            "id" :-> JObject ["@_extension" :-> "916854671"; "@_root" :-> OID_ITIN_ID];
            "addr" :-> JObject [
              "@_use" :-> "HP";
              "streetAddressLine" :-> orElse (optChain orgAddress OrganizationAddress.line) "202 Burlington Rd.";
              "city" :-> orElse (optChain orgAddress OrganizationAddress.city) "Bedford";
              "state" :-> orElse (optChain orgAddress OrganizationAddress.state) "MA";
              "postalCode" :-> orElse (optChain orgAddress OrganizationAddress.postalCode) "01730";
              "country" :-> orElse (optChain orgAddress OrganizationAddress.country) "US"
            ]
          ]
        ]
      ]
    ]
  ].

Definition buildMeasureSection (this : FhirToQrdaConverter) : Js World JsValue :=
  let measureId := orElse (optChain (measure (options this)) Measure.id) "CMS68v14" in
  let measureTitle :=
    orElse (optChain (measure (options this)) Measure.title)
      "Percentage of visits for which the eligible clinician attests to documenting a list of current medications using all immediate resources available on the date of the encounter" in
  let measureVersionId := "8A6D0454-8DF0-2D9F-018D-F6AEBA950637" in
  organizerId <- liftEffect generateId ;;
  ret (JObject [
    "section" :-> JObject [
      "templateId" :-> QRDA_MEASURE_SECTION_TEMPLATE_IDS;
      "code" :-> JObject ["@_code" :-> LOINC_MEASURE_DOCUMENT; "@_codeSystem" :-> OID_LOINC_CODE_SYSTEM];
      "title" :-> "Measure Section";
      "text" :-> JObject [
        "table" :-> JObject [
          "@_border" :-> "1";
          "@_width" :-> "100%";
          "thead" :-> JObject [
            "tr" :-> JObject [
              "th" :-> JArray [JString "eMeasure Title"; JString "Version specific identifier"]
            ]
          ];
          "tbody" :-> JObject [
            "tr" :-> JObject [
              "td" :-> JArray [JString measureTitle; JString measureVersionId; JString ""]
            ]
          ]
        ]
      ];
      "entry" :-> JObject [
        "organizer" :-> JObject [
          "@_classCode" :-> "CLUSTER";
          "@_moodCode" :-> "EVN";
          "templateId" :-> QRDA_MEASURE_REFERENCE_TEMPLATE_IDS;
          "id" :-> JObject ["@_extension" :-> organizerId; "@_root" :-> OID_PATIENT_ID];
          "statusCode" :-> JObject ["@_code" :-> "completed"];
          "reference" :-> JObject [
            "@_typeCode" :-> "REFR";
            "externalDocument" :-> JObject [
              "@_classCode" :-> "DOC";
              "@_moodCode" :-> "EVN";
              "id" :-> JObject ["@_extension" :-> measureVersionId;
                                "@_root" :-> OID_ECQM_VERSION_SPECIFIC_ID];
              "text" :-> measureTitle;
              "setId" :-> JObject [
                "@_root" :-> orElse (optChain (measure (options this)) Measure.setId) CMS68V14_MEASURE_GUID
              ]
            ]
          ]
        ]
      ]
    ]
  ]).

Definition buildReportingParametersSection (this : FhirToQrdaConverter) : Js World JsValue :=
  actId <- liftEffect generateId ;;
  low <- liftCompletion (mapFhirToCcdaDateTime (ReportingPeriod.start (reportingPeriod (options this)))) ;;
  high <- liftCompletion (mapFhirToCcdaDateTime (ReportingPeriod.end_ (reportingPeriod (options this)))) ;;
  ret (JObject [
    "section" :-> JObject [
      "templateId" :-> QRDA_REPORTING_PARAMETERS_TEMPLATE_IDS;
      "code" :-> JObject ["@_code" :-> LOINC_REPORTING_PARAMETERS; "@_codeSystem" :-> OID_LOINC_CODE_SYSTEM];
      "title" :-> "Reporting Parameters";
      "text" :-> "";
      "entry" :-> JObject [
        "@_typeCode" :-> "DRIV";
        "act" :-> JObject [
          "@_classCode" :-> "ACT";
          "@_moodCode" :-> "EVN";
          "templateId" :-> QRDA_REPORTING_PARAMETERS_ACT_TEMPLATE_IDS;
          "id" :-> JObject ["@_extension" :-> actId; "@_root" :-> OID_PATIENT_ID];
          "code" :-> JObject [
            "@_code" :-> SNOMED_OBSERVATION_PARAMETERS;
            "@_codeSystem" :-> "2.16.840.1.113883.6.96";
            "@_displayName" :-> "Observation Parameters"
          ];
          "effectiveTime" :-> JObject [
            "low" :-> JObject ["@_value" :-> low];
            "high" :-> JObject ["@_value" :-> high]
          ]
        ]
      ]
    ]
  ]).

Definition buildPatientDataSection (this : FhirToQrdaConverter) : JsValue :=
  let entries : list JsValue := [] in
  JObject [
    "section" :-> JObject [
      "templateId" :-> QRDA_PATIENT_DATA_SECTION_TEMPLATE_IDS;
      "code" :-> JObject ["@_code" :-> LOINC_PATIENT_DATA; "@_codeSystem" :-> OID_LOINC_CODE_SYSTEM];
      "title" :-> "Patient Data";
      "text" :-> "";
      "entry" :-> JArray entries
    ]
  ].

Definition buildStructuredBody (this : FhirToQrdaConverter) : Js World JsValue :=
  measureSection <- buildMeasureSection this ;;
  reportingParametersSection <- buildReportingParametersSection this ;;
  ret (JObject [
    "structuredBody" :-> JObject [
      "component" :-> JArray [measureSection; reportingParametersSection; buildPatientDataSection this]
    ]
  ]).

(** [convert]: properties of the returned literal are evaluated top to
    bottom, which fixes the order of the collaborator calls. *)
Definition convert (this : FhirToQrdaConverter) : Js World JsValue :=
  currentDateTime <- liftEffect newDateToISOString ;;
  documentId <- liftEffect generateId ;;
  effectiveTime <- liftCompletion (mapFhirToCcdaDateTime currentDateTime) ;;
  recordTarget <- buildRecordTarget this ;;
  author <- buildAuthor this currentDateTime ;;
  legalAuthenticator <- buildLegalAuthenticator this currentDateTime ;;
  component <- buildStructuredBody this ;;
  ret (JObject [
    "realmCode" :-> JObject ["@_code" :-> "US"];
    "typeId" :-> JObject ["@_root" :-> OID_HL7_REGISTERED_MODELS; "@_extension" :-> "POCD_HD000040"];
    "templateId" :-> QRDA_CATEGORY_I_TEMPLATE_IDS;
    "id" :-> JArray [JObject ["@_root" :-> documentId]];
    "code" :-> JObject [
      "@_code" :-> LOINC_QUALITY_MEASURE_REPORT;
      "@_codeSystem" :-> OID_LOINC_CODE_SYSTEM;
      "@_codeSystemName" :-> "LOINC";
      "@_displayName" :-> "Quality Measure Report"
    ];
    "title" :-> "QRDA Incidence Report";
    "effectiveTime" :-> JArray [JObject ["@_value" :-> effectiveTime]];
    "confidentialityCode" :-> JObject ["@_code" :-> "N"; "@_codeSystem" :-> "2.16.840.1.113883.5.25"];
    "languageCode" :-> JObject ["@_code" :-> "en"];
    "recordTarget" :-> recordTarget;
    "author" :-> author;
    "custodian" :-> buildCustodian this;
    "legalAuthenticator" :-> legalAuthenticator;
    "participant" :-> buildParticipant this;
    "documentationOf" :-> buildDocumentationOf this;
    "component" :-> component
  ]).

(** [convertFhirToQrda]: [new FhirToQrdaConverter(bundle, options).convert()] *)
Definition convertFhirToQrda (b : Bundle) (o : FhirToQrdaOptions) : Js World JsValue :=
  this <- liftCompletion (construct b o) ;;
  convert this.

End Converter.

(** ** Running the converter *)

Section Run.

Context {oids : OidsModule} {qrdaOids : QrdaOidsModule}.
Context {World : Type} {collab : Collaborators World}.

(** Whether the formatter accepts a string. *)
Definition formats (s : string) : bool :=
  match mapFhirToCcdaDateTime s with
  | Normal _ => true
  | Throw _ => false
  end.

(** The strings one conversion hands to the formatter: the timestamp read
    from the clock, the patient's birth date at midnight UTC, and the two
    ends of the reporting period. *)
Definition timestamps (p : Patient) (o : FhirToQrdaOptions) (w : World) : list string :=
  [ fst (newDateToISOString w);
    ToString (birthDate p) ++ "T00:00:00.000Z";
    ReportingPeriod.start (reportingPeriod o);
    ReportingPeriod.end_ (reportingPeriod o) ].

(** The world after [n] identifier draws; a conversion that returns reads
    the clock once and then draws four identifiers. *)
Fixpoint draw (n : nat) (w : World) : World :=
  match n with
  | O => w
  | S n' => snd (generateId (draw n' w))
  end.

Definition afterConversion (w : World) : World :=
  draw 4 (snd (newDateToISOString w)).

End Run.

(** ** Vocabulary of the statements *)

(** [bundle.entry ?? []] *)
Definition entries (b : Bundle) : list BundleEntry :=
  match entry b with
  | Some es => es
  | None => []
  end.

(** The section list of a document: [component.structuredBody.component]. *)
Definition sections (doc : JsValue) : option (list JsValue) :=
  optChain (path ["component"; "structuredBody"; "component"] doc) items.

(** What identifies a section: its template identifiers, its code and its
    title. *)
Definition sectionHeader (component : JsValue) : option (JsValue * JsValue * JsValue) :=
  match path ["section"; "templateId"] component,
        path ["section"; "code"] component,
        path ["section"; "title"] component with
  | Some templateId, Some code, Some title => Some (templateId, code, title)
  | _, _, _ => None
  end.

(** One rendered telecom channel: nothing when the patient has no contact
    point of that system, else a single home-use entry with the prefixed
    value. *)
Definition telecomChannel (scheme : string) (t : option ContactPoint) : list JsValue :=
  match t with
  | Some t => [JObject ["@_use" :-> "HP"; "@_value" :-> scheme ++ ToString (value t)]]
  | None => []
  end.

(** Two option records agree on everything but [measure.id] and
    [measure.version]. *)
Definition agreeUpToMeasureIdAndVersion (o1 o2 : FhirToQrdaOptions) : Prop :=
  category o1 = category o2 /\
  optChain (measure o1) Measure.title = optChain (measure o2) Measure.title /\
  optChain (measure o1) Measure.setId = optChain (measure o2) Measure.setId /\
  reportingPeriod o1 = reportingPeriod o2 /\
  organization o1 = organization o2 /\
  author o1 = author o2.

(** The keys of an object literal, in the order they were written. *)
Definition keys (v : JsValue) : list string :=
  match v with
  | JObject props => map fst props
  | _ => []
  end.

(** What [buildRecordTarget] reads of an address. *)
Definition addressView (a : Address)
  : option string * option string * option string * option string * option string :=
  (first (line a), city a, state a, postalCode a, country a).

(** What the converter reads of the subject: identifier, gender, birth date,
    the first given name and the family name of the first name entry, the
    first address, and the values of the first phone and the first email
    contact points. *)
Definition demographics (p : Patient) :=
  (id p, gender p, birthDate p,
   first (optChain (first (name p)) given),
   optChain (first (name p)) family,
   option_map addressView (first (address p)),
   option_map value (findIn (isSystem "phone") (telecom p)),
   option_map value (findIn (isSystem "email") (telecom p))).

(** Two option records agree on everything but [category] and
    [organization.npi]. *)
Definition agreeUpToCategoryAndOrganizationNpi (o1 o2 : FhirToQrdaOptions) : Prop :=
  measure o1 = measure o2 /\
  reportingPeriod o1 = reportingPeriod o2 /\
  optChain (organization o1) Organization.name = optChain (organization o2) Organization.name /\
  optChain (organization o1) Organization.id = optChain (organization o2) Organization.id /\
  orgAddressOf o1 = orgAddressOf o2 /\
  author o1 = author o2.

(** A string that [||] keeps: present and not empty. *)
Definition supplied (x : option string) (s : string) : Prop :=
  x = Some s /\ s <> "".

Section RunErrors.

Context {World : Type} {collab : Collaborators World}.

(** The error of the first string, in list order, that the formatter
    rejects. *)
Fixpoint firstError (ss : list string) : option JsError :=
  match ss with
  | [] => None
  | s :: rest =>
      match mapFhirToCcdaDateTime s with
      | Throw e => Some e
      | Normal _ => firstError rest
      end
  end.

End RunErrors.

(** ** A concrete world to run the converter in *)

Module Sample.

Definition digit (n : nat) : string :=
  String (ascii_of_nat (48 + Nat.modulo n 10)) "".

(** Clock ticks and identifiers drawn so far. *)
Definition World : Type := (nat * nat)%type.

Fixpoint dropSeparators (s : string) : string :=
  match s with
  | EmptyString => EmptyString
  | String c rest =>
      if (Ascii.eqb c "-" || Ascii.eqb c ":")%bool
      then dropSeparators rest
      else String c (dropSeparators rest)
  end.

#[export] Instance collaborators : Collaborators World := {
  generateId w := ("urn:uuid:0000000" ++ digit (snd w), (fst w, S (snd w)));
  newDateToISOString w := ("2025-03-01T10:00:0" ++ digit (fst w) ++ ".000Z", (S (fst w), snd w));
  mapFhirToCcdaDateTime s :=
    if (s =? "")%string then Throw (Error "Invalid time value")
    else Normal (JString (dropSeparators s));
}.

#[export] Instance oids : OidsModule := {
  OID_HL7_REGISTERED_MODELS := "2.16.840.1.113883.1.3";
  OID_LOINC_CODE_SYSTEM := "2.16.840.1.113883.6.1";
  OID_US_REALM_CDA_HEADER := "2.16.840.1.113883.10.20.22.1.1";
}.

#[export] Instance qrdaOids : QrdaOidsModule := {
  OID_CCN_SYSTEM := "2.16.840.1.113883.4.336";
  OID_CMS_EHR_CERTIFICATION_NUMBER := "2.16.840.1.113883.3.2074.1";
  OID_ECQM_VERSION_SPECIFIC_ID := "2.16.840.1.113883.4.738";
  OID_ITIN_ID := "2.16.840.1.113883.4.2";
  OID_ORGANIZATION_ID := "2.16.840.1.113883.19.5";
  OID_PATIENT_ID := "1.3.6.1.4.1.115";
  OID_CMS_QRDA_CATEGORY_I := "2.16.840.1.113883.10.20.24.1.3";
  OID_EMEASURE_REFERENCE_QDM := "2.16.840.1.113883.10.20.24.3.97";
  OID_MEASURE_REFERENCE := "2.16.840.1.113883.10.20.24.3.98";
  OID_MEASURE_SECTION := "2.16.840.1.113883.10.20.24.2.2";
  OID_MEASURE_SECTION_QDM := "2.16.840.1.113883.10.20.24.2.3";
  OID_PATIENT_DATA_SECTION := "2.16.840.1.113883.10.20.17.2.4";
  OID_PATIENT_DATA_SECTION_QDM_V8 := "2.16.840.1.113883.10.20.24.2.1";
  OID_PATIENT_DATA_SECTION_QDM_V8_CMS := "2.16.840.1.113883.10.20.24.2.1.1";
  OID_QDM_BASED_QRDA := "2.16.840.1.113883.10.20.24.1.2";
  OID_QRDA_CATEGORY_I := "2.16.840.1.113883.10.20.24.1.1";
  OID_REPORTING_PARAMETERS_ACT := "2.16.840.1.113883.10.20.17.3.8";
  OID_REPORTING_PARAMETERS_ACT_CMS := "2.16.840.1.113883.10.20.17.3.8.1";
  OID_REPORTING_PARAMETERS_SECTION := "2.16.840.1.113883.10.20.17.2.1";
  OID_REPORTING_PARAMETERS_SECTION_CMS := "2.16.840.1.113883.10.20.17.2.1.1";
}.

Definition homeAddress : Address := {|
  line := Some ["1 Main St"; "Apt 2"];
  city := Some "Springfield";
  state := None;
  postalCode := Some "62704";
  country := Some "";
|}.

Definition jane : Patient := {|
  resourceType := "Patient";
  id := Some "patient-1";
  name := Some [{| given := Some ["Jane"; "Q"]; family := Some "Doe" |}];
  address := Some [homeAddress];
  telecom := Some [
    {| system := Some "email"; value := Some "jane@example.com" |};
    {| system := Some "phone"; value := Some "555-1234" |};
    {| system := Some "phone"; value := Some "555-9999" |}
  ];
  gender := Some "female";
  birthDate := Some "1980-05-17";
|}.

Definition encounter : Resource := {|
  resourceType := "Encounter";
  id := Some "enc-1";
  name := None;
  address := None;
  telecom := None;
  gender := None;
  birthDate := None;
|}.

Definition bundleWithPatient : Bundle := {|
  entry := Some [
    {| resource := None |};
    {| resource := Some encounter |};
    {| resource := Some jane |}
  ];
|}.

Definition bundleWithoutPatient : Bundle := {|
  entry := Some [{| resource := Some encounter |}; {| resource := None |}];
|}.

Definition year2023 : ReportingPeriod.t := {|
  ReportingPeriod.start := "2023-01-01";
  ReportingPeriod.end_ := "2023-12-31";
|}.

Definition minimalOptions : FhirToQrdaOptions := {|
  category := None;
  measure := None;
  reportingPeriod := year2023;
  organization := None;
  author := None;
|}.

Definition measureWithEmptySetId : Measure.t := {|
  Measure.id := Some "CMS68v14";
  Measure.title := None;
  Measure.version := None;
  Measure.setId := Some "";
|}.

Definition emptySetIdOptions : FhirToQrdaOptions := {|
  category := None;
  measure := Some measureWithEmptySetId;
  reportingPeriod := year2023;
  organization := None;
  author := None;
|}.

Definition measureA : Measure.t := {|
  Measure.id := Some "CMS68v14";
  Measure.title := Some "Documentation of Current Medications";
  Measure.version := Some "14.0.000";
  Measure.setId := Some "9A032D9C-3D9B-11E1-8634-00237D5BF174";
|}.

Definition measureB : Measure.t := {|
  Measure.id := Some "CMS122v12";
  Measure.title := Some "Documentation of Current Medications";
  Measure.version := None;
  Measure.setId := Some "9A032D9C-3D9B-11E1-8634-00237D5BF174";
|}.

Definition optionsWith (m : Measure.t) : FhirToQrdaOptions := {|
  category := Some CategoryI;
  measure := Some m;
  reportingPeriod := year2023;
  organization := None;
  author := None;
|}.

Definition w0 : World := (0, 0).

Definition openEndedOptions : FhirToQrdaOptions := {|
  category := None;
  measure := None;
  reportingPeriod := {| ReportingPeriod.start := "2023-01-01"; ReportingPeriod.end_ := "" |};
  organization := None;
  author := None;
|}.

Definition run (b : Bundle) (o : FhirToQrdaOptions) : Completion JsValue * World :=
  convertFhirToQrda (oids := oids) (qrdaOids := qrdaOids) (collab := collaborators) b o w0.

Definition accepted (o : FhirToQrdaOptions) : bool :=
  forallb (formats (collab := collaborators)) (timestamps (collab := collaborators) jane o w0).

Definition john : Patient := {|
  resourceType := "Patient";
  id := Some "patient-2";
  name := None;
  address := None;
  telecom := Some [{| system := Some "phone"; value := None |}];
  gender := None;
  birthDate := None;
|}.

Definition bundleWithTwoPatients : Bundle := {|
  entry := Some [
    {| resource := None |};
    {| resource := Some encounter |};
    {| resource := Some jane |};
    {| resource := Some john |}
  ];
|}.

Definition bundleWithJohn : Bundle := {|
  entry := Some [{| resource := Some john |}];
|}.

(** The same subject as [jane], recorded with more detail than the
    converter reads. *)
Definition janeInFull : Patient := {|
  resourceType := "Patient";
  id := Some "patient-1";
  name := Some [
    {| given := Some ["Jane"]; family := Some "Doe" |};
    {| given := Some ["Janet"]; family := Some "Smith" |}
  ];
  address := Some [
    {| line := Some ["1 Main St"];
       city := Some "Springfield";
       state := None;
       postalCode := Some "62704";
       country := Some "" |};
    {| line := None; city := Some "Shelbyville"; state := None;
       postalCode := None; country := None |}
  ];
  telecom := Some [
    {| system := Some "fax"; value := Some "555-0000" |};
    {| system := Some "phone"; value := Some "555-1234" |};
    {| system := Some "email"; value := Some "jane@example.com" |};
    {| system := Some "email"; value := Some "jd@example.org" |}
  ];
  gender := Some "female";
  birthDate := Some "1980-05-17";
|}.

Definition bundleInFull : Bundle := {|
  entry := Some [{| resource := Some janeInFull |}; {| resource := Some jane |}];
|}.

Definition clinicAddress : OrganizationAddress.t := {|
  OrganizationAddress.line := Some "9 Elm Street";
  OrganizationAddress.city := Some "Boston";
  OrganizationAddress.state := Some "MA";
  OrganizationAddress.postalCode := Some "02110";
  OrganizationAddress.country := Some "US";
|}.

Definition clinic (npi : option string) : Organization.t := {|
  Organization.name := Some "Elm Street Clinic";
  Organization.id := Some "440011";
  Organization.npi := npi;
  Organization.address := Some clinicAddress;
|}.

Definition clinicOptions (c : option Category) (npi : option string) : FhirToQrdaOptions := {|
  category := c;
  measure := Some measureA;
  reportingPeriod := year2023;
  organization := Some (clinic npi);
  author := Some {| Author.name := Some "Elm EHR"; Author.npi := Some "1234567893" |};
|}.

End Sample.

(** ** Properties *)

Lemma find_hasResourceType_None (rt : string) (es : list BundleEntry) :
  (forall e r, In e es -> resource e = Some r -> resourceType r <> rt) ->
  find (hasResourceType rt) es = None.
Proof.
  induction es as [|e es IH]; intros Hno; simpl; [reflexivity|].
  unfold hasResourceType at 1.
  destruct (resource e) as [r|] eqn:Er.
  - destruct (String.eqb_spec (resourceType r) rt) as [Heq|_].
    + exfalso. apply (Hno e r); simpl; auto.
    + apply IH. intros e' r' Hin. apply Hno. now right.
  - apply IH. intros e' r' Hin. apply Hno. now right.
Qed.

Lemma findResource_None (b : Bundle) (rt : string) :
  (forall e r, In e (entries b) -> resource e = Some r -> resourceType r <> rt) ->
  findResource b rt = None.
Proof.
  unfold findResource, findIn, entries, optChain.
  destruct (entry b) as [es|]; intros Hno; [|reflexivity].
  now rewrite (find_hasResourceType_None es Hno).
Qed.

Lemma findResource_Some (b : Bundle) (rt : string) (r : Resource) :
  findResource b rt = Some r ->
  exists e, In e (entries b) /\ resource e = Some r /\ resourceType r = rt.
Proof.
  unfold findResource, findIn, entries, optChain.
  destruct (entry b) as [es|]; [|discriminate].
  destruct (find (hasResourceType rt) es) as [e|] eqn:Ef; [|discriminate].
  intros Hr. apply find_some in Ef. destruct Ef as [Hin Hty].
  exists e. unfold hasResourceType in Hty. rewrite Hr in Hty.
  apply String.eqb_eq in Hty. auto.
Qed.

(** A bundle that holds a resource of the requested type has a first one. *)
Lemma findResource_finds (b : Bundle) (rt : string) (e : BundleEntry) (r : Resource) :
  In e (entries b) -> resource e = Some r -> resourceType r = rt ->
  exists r', findResource b rt = Some r'.
Proof.
  unfold findResource, findIn, entries, optChain.
  destruct (entry b) as [es|]; [|contradiction].
  intros Hin Hr Hrt.
  destruct (find (hasResourceType rt) es) as [e'|] eqn:Ef.
  - apply find_some in Ef. destruct Ef as [_ Hty].
    unfold hasResourceType in Hty.
    destruct (resource e') as [r'|]; [eauto|discriminate].
  - apply (find_none _ _ Ef) in Hin.
    unfold hasResourceType in Hin. rewrite Hr, Hrt, String.eqb_refl in Hin. discriminate.
Qed.

(** ** Bundle queries *)

Lemma find_skips_prefix {A : Type} (f : A -> bool) (pre post : list A) (x : A) :
  (forall y, In y pre -> f y = false) -> f x = true ->
  find f (pre ++ x :: post)%list = Some x.
Proof.
  induction pre as [|y pre IH]; intros Hpre Hx; simpl.
  - now rewrite Hx.
  - rewrite (Hpre y (or_introl eq_refl)). apply IH; [|exact Hx].
    intros z Hz. apply Hpre. now right.
Qed.

(** X1. [findResource] returns the resource of the first matching entry:
    entries before it that carry no resource, or one of another type, are
    passed over, and later matches are not looked at. *)
Theorem findResource_first_match
  (b : Bundle) (rt : string) (pre post : list BundleEntry) (e : BundleEntry) (r : Resource) :
  entry b = Some (pre ++ e :: post)%list ->
  (forall e', In e' pre -> hasResourceType rt e' = false) ->
  resource e = Some r ->
  resourceType r = rt ->
  findResource b rt = Some r.
Proof.
  intros Hentry Hpre Hr Hrt.
  unfold findResource, findIn, optChain. rewrite Hentry.
  rewrite (find_skips_prefix (hasResourceType rt) pre post e Hpre).
  - exact Hr.
  - unfold hasResourceType. rewrite Hr, Hrt. apply String.eqb_refl.
Qed.

(** X2. The single-result query is the head of the all-results query. *)
Theorem findResource_is_head_of_findResourcesByType (b : Bundle) (rt : string) :
  findResource b rt = hd_error (findResourcesByType b rt).
Proof.
  unfold findResource, findResourcesByType, findIn, optChain.
  destruct (entry b) as [es|]; [|reflexivity].
  induction es as [|e es IH]; [reflexivity|].
  simpl. unfold hasResourceType at 1 3.
  destruct (resource e) as [r|] eqn:Hr; [|exact IH].
  destruct (resourceType r =? rt)%string; [|exact IH].
  simpl. rewrite Hr. reflexivity.
Qed.

(** X3. [findResourcesByType] returns exactly the resources of the requested
    type that the bundle's entries carry; a bundle without [entry] gives
    the empty list. *)
Theorem findResourcesByType_spec (b : Bundle) (rt : string) (r : Resource) :
  In r (findResourcesByType b rt) <->
  exists e, In e (entries b) /\ resource e = Some r /\ resourceType r = rt.
Proof.
  unfold findResourcesByType, entries.
  destruct (entry b) as [es|].
  - rewrite in_flat_map. split.
    + intros (e & Hin & Hr). apply filter_In in Hin. destruct Hin as [Hin Hty].
      exists e. unfold hasResourceType in Hty.
      destruct (resource e) as [r'|]; [|contradiction].
      destruct Hr as [<-|[]]. apply String.eqb_eq in Hty. auto.
    + intros (e & Hin & Hr & Hty). exists e. split.
      * apply filter_In. split; [exact Hin|].
        unfold hasResourceType. rewrite Hr, Hty. apply String.eqb_refl.
      * rewrite Hr. now left.
  - split; [contradiction|]. intros (e & [] & _).
Qed.

(** X4. The all-results query keeps the bundle's order: it is the list of the
    resources of the matching entries, one per entry. *)
Theorem findResourcesByType_in_order (b : Bundle) (rt : string) :
  map Some (findResourcesByType b rt) = map resource (filter (hasResourceType rt) (entries b)).
Proof.
  unfold findResourcesByType, entries.
  destruct (entry b) as [es|]; [|reflexivity].
  induction es as [|e es IH]; [reflexivity|].
  simpl. destruct (hasResourceType rt e) eqn:Hty; [|exact IH].
  unfold hasResourceType in Hty.
  destruct (resource e) as [r|] eqn:Hr; [|discriminate].
  simpl. rewrite Hr. simpl. now rewrite IH.
Qed.

Section Properties.

Context {oids : OidsModule} {qrdaOids : QrdaOidsModule}.
Context {World : Type} {collab : Collaborators World}.

Lemma formats_Normal (s : string) :
  formats s = true -> exists v, mapFhirToCcdaDateTime s = Normal v.
Proof.
  unfold formats. destruct (mapFhirToCcdaDateTime s) as [v|e]; [eauto|discriminate].
Qed.

Lemma timestamps_format (p : Patient) (o : FhirToQrdaOptions) (w : World) :
  forallb formats (timestamps p o w) = true ->
  exists now birth low high,
    mapFhirToCcdaDateTime (fst (newDateToISOString w)) = Normal now /\
    mapFhirToCcdaDateTime (ToString (birthDate p) ++ "T00:00:00.000Z") = Normal birth /\
    mapFhirToCcdaDateTime (ReportingPeriod.start (reportingPeriod o)) = Normal low /\
    mapFhirToCcdaDateTime (ReportingPeriod.end_ (reportingPeriod o)) = Normal high.
Proof.
  unfold timestamps. cbn [forallb]. rewrite !andb_true_iff.
  intros (H1 & H2 & H3 & H4 & _).
  apply formats_Normal in H1, H2, H3, H4.
  destruct H1 as [now H1], H2 as [birth H2], H3 as [low H3], H4 as [high H4].
  now exists now, birth, low, high.
Qed.

(** A throwing step ends the computation. *)
Lemma bind_Throw {A B : Type} (m : Js World A) (k : A -> Js World B) (w w' : World) (e : JsError) :
  m w = (Throw e, w') -> bind m k w = (Throw e, w').
Proof. unfold bind. now intros ->. Qed.

(** Symbolic execution of [convertFhirToQrda] on an input with a patient
    whose four timestamps the formatter accepts. *)
Ltac run_conversion Hpatient Hformats :=
  let now := fresh "now" in
  let birth := fresh "birth" in
  let low := fresh "low" in
  let high := fresh "high" in
  let Hnow := fresh "Hnow" in
  let Hbirth := fresh "Hbirth" in
  let Hlow := fresh "Hlow" in
  let Hhigh := fresh "Hhigh" in
  destruct (timestamps_format _ _ _ Hformats)
    as (now & birth & low & high & Hnow & Hbirth & Hlow & Hhigh);
  unfold convertFhirToQrda, construct, convert, buildStructuredBody,
    buildReportingParametersSection, buildMeasureSection, buildLegalAuthenticator,
    buildAuthor, buildRecordTarget, afterConversion;
  rewrite Hpatient;
  cbv beta iota zeta delta [bind liftCompletion liftEffect ret patient options bundle draw];
  rewrite Hnow; cbv beta iota;
  rewrite Hbirth; cbv beta iota;
  rewrite Hlow; cbv beta iota;
  rewrite Hhigh; cbv beta iota.

(** C1. A bundle with no entry whose resource is a Patient: the constructor
    throws [Error('Patient not found in bundle')], so [convertFhirToQrda]
    completes with that error and returns no document; [convert] is never
    entered, and the world is left as it was found (the clock is not read
    and no identifier is drawn). *)
Theorem missing_patient_throws_before_building
  (b : Bundle) (o : FhirToQrdaOptions) (w : World) :
  (forall e r, In e (entries b) -> resource e = Some r -> resourceType r <> "Patient") ->
  construct b o = Throw (Error "Patient not found in bundle") /\
  convertFhirToQrda b o w = (Throw (Error "Patient not found in bundle"), w).
Proof.
  intros Hno. apply findResource_None in Hno.
  assert (Hc : construct b o = Throw (Error "Patient not found in bundle"))
    by (unfold construct; now rewrite Hno).
  split; [exact Hc|].
  unfold convertFhirToQrda. apply bind_Throw. unfold liftCompletion. now rewrite Hc.
Qed.

(** C2. For a bundle with a patient, any options and timestamps the
    formatter accepts, a document is returned whose structured body has
    exactly three sections, in the order measure, reporting parameters,
    patient data; each is recognised by its template identifiers, its LOINC
    code and its title. *)
Theorem structuredBody_has_three_sections_in_order
  (b : Bundle) (o : FhirToQrdaOptions) (w : World) (p : Patient) :
  findResource b "Patient" = Some p ->
  forallb formats (timestamps p o w) = true ->
  exists doc measureSection reportingParameters patientData,
    convertFhirToQrda b o w = (Normal doc, afterConversion w) /\
    sections doc = Some [measureSection; reportingParameters; patientData] /\
    sectionHeader measureSection =
      Some (QRDA_MEASURE_SECTION_TEMPLATE_IDS,
            JObject ["@_code" :-> "55186-1"; "@_codeSystem" :-> OID_LOINC_CODE_SYSTEM],
            JString "Measure Section") /\
    sectionHeader reportingParameters =
      Some (QRDA_REPORTING_PARAMETERS_TEMPLATE_IDS,
            JObject ["@_code" :-> "55187-9"; "@_codeSystem" :-> OID_LOINC_CODE_SYSTEM],
            JString "Reporting Parameters") /\
    sectionHeader patientData =
      Some (QRDA_PATIENT_DATA_SECTION_TEMPLATE_IDS,
            JObject ["@_code" :-> "55188-7"; "@_codeSystem" :-> OID_LOINC_CODE_SYSTEM],
            JString "Patient Data").
Proof.
  intros Hpatient Hformats.
  run_conversion Hpatient Hformats.
  do 4 eexists. split; [reflexivity|].
  split; [reflexivity|].
  repeat split.
Qed.

(** C3. Header template identifiers: whenever the bundle has a patient and
    the formatter accepts the conversion's timestamps, a document is
    returned and its [templateId] is the registry's document-header list,
    four entries in the declared order: US Realm CDA header 2015-08-01,
    QRDA Category I 2017-08-01, QDM-based QRDA 2021-08-01, CMS QRDA
    Category I 2022-02-01. *)
Theorem header_templateId_is_registry_set
  (b : Bundle) (o : FhirToQrdaOptions) (w : World) (p : Patient) :
  findResource b "Patient" = Some p ->
  forallb formats (timestamps p o w) = true ->
  exists doc,
    convertFhirToQrda b o w = (Normal doc, afterConversion w) /\
    prop "templateId" doc = Some QRDA_CATEGORY_I_TEMPLATE_IDS /\
    QRDA_CATEGORY_I_TEMPLATE_IDS =
      JArray [
        JObject ["@_root" :-> OID_US_REALM_CDA_HEADER; "@_extension" :-> "2015-08-01"];
        JObject ["@_root" :-> OID_QRDA_CATEGORY_I; "@_extension" :-> "2017-08-01"];
        JObject ["@_root" :-> OID_QDM_BASED_QRDA; "@_extension" :-> "2021-08-01"];
        JObject ["@_root" :-> OID_CMS_QRDA_CATEGORY_I; "@_extension" :-> "2022-02-01"]
      ].
Proof.
  intros Hpatient Hformats.
  run_conversion Hpatient Hformats.
  eexists. split; [reflexivity|]. split; reflexivity.
Qed.

(** C4. On every input that yields a document (a patient in the bundle,
    timestamps the formatter accepts), the act of the reporting-parameters
    section (the second section) carries the reporting period:
    [effectiveTime.low] is the formatted
    [reportingPeriod.start] and [effectiveTime.high] the formatted
    [reportingPeriod.end], whatever the two strings are (for instance
    2023-01-01 and 2023-12-31). *)
Theorem reporting_period_fills_act_effectiveTime
  (b : Bundle) (o : FhirToQrdaOptions) (w : World) (p : Patient) :
  findResource b "Patient" = Some p ->
  forallb formats (timestamps p o w) = true ->
  exists doc reportingParameters low high,
    convertFhirToQrda b o w = (Normal doc, afterConversion w) /\
    optChain (sections doc) (fun ss => nth_error ss 1) = Some reportingParameters /\
    mapFhirToCcdaDateTime (ReportingPeriod.start (reportingPeriod o)) = Normal low /\
    mapFhirToCcdaDateTime (ReportingPeriod.end_ (reportingPeriod o)) = Normal high /\
    path ["section"; "entry"; "act"; "effectiveTime"] reportingParameters =
      Some (JObject ["low" :-> JObject ["@_value" :-> low];
                     "high" :-> JObject ["@_value" :-> high]]).
Proof.
  intros Hpatient Hformats.
  run_conversion Hpatient Hformats.
  eexists. eexists. exists low, high.
  split; [reflexivity|].
  split; [reflexivity|].
  repeat split; assumption.
Qed.

(** C5. On every input that yields a document (a patient in the bundle,
    timestamps the formatter accepts), the patient-data section (the third
    section) is there with its
    three template identifiers, the LOINC patient-data code and its title,
    and its entry list is empty. *)
Theorem patient_data_section_has_no_entries
  (b : Bundle) (o : FhirToQrdaOptions) (w : World) (p : Patient) :
  findResource b "Patient" = Some p ->
  forallb formats (timestamps p o w) = true ->
  exists doc patientData,
    convertFhirToQrda b o w = (Normal doc, afterConversion w) /\
    optChain (sections doc) (fun ss => nth_error ss 2) = Some patientData /\
    path ["section"; "entry"] patientData = Some (JArray []) /\
    path ["section"; "templateId"] patientData =
      Some (JArray [
        JObject ["@_root" :-> OID_PATIENT_DATA_SECTION];
        JObject ["@_root" :-> OID_PATIENT_DATA_SECTION_QDM_V8; "@_extension" :-> "2021-08-01"];
        JObject ["@_root" :-> OID_PATIENT_DATA_SECTION_QDM_V8_CMS; "@_extension" :-> "2022-02-01"]
      ]) /\
    path ["section"; "code"] patientData =
      Some (JObject ["@_code" :-> "55188-7"; "@_codeSystem" :-> OID_LOINC_CODE_SYSTEM]) /\
    path ["section"; "title"] patientData = Some (JString "Patient Data").
Proof.
  intros Hpatient Hformats.
  run_conversion Hpatient Hformats.
  do 2 eexists. split; [reflexivity|].
  split; [reflexivity|].
  repeat split.
Qed.

(** C6. On every input that yields a document, one clock read serves the
    whole header, whatever the clock does between reads: the document's
    [effectiveTime], the author's [time] and the legal authenticator's
    [time] all hold the formatted value of the timestamp read at the top of
    [convert], and the world afterwards is the one left by a single clock
    read followed by the four identifier draws. *)
Theorem header_timestamps_share_one_clock_read
  (b : Bundle) (o : FhirToQrdaOptions) (w : World) (p : Patient) :
  findResource b "Patient" = Some p ->
  forallb formats (timestamps p o w) = true ->
  exists doc now,
    convertFhirToQrda b o w = (Normal doc, draw 4 (snd (newDateToISOString w))) /\
    mapFhirToCcdaDateTime (fst (newDateToISOString w)) = Normal now /\
    prop "effectiveTime" doc = Some (JArray [JObject ["@_value" :-> now]]) /\
    path ["author"; "time"] doc = Some (JObject ["@_value" :-> now]) /\
    path ["legalAuthenticator"; "time"] doc = Some (JObject ["@_value" :-> now]).
Proof.
  intros Hpatient Hformats.
  run_conversion Hpatient Hformats.
  eexists. exists now.
  split; [reflexivity|].
  repeat split; assumption.
Qed.

(** C7. On every input that yields a document, the record target's
    telecom list holds, in this order, one entry
    for the first phone contact point and one for the first email contact
    point, each only when the patient has one.  So a patient without
    telecom entries gets the empty list, a phone with value 555-1234 is
    rendered as tel:555-1234, and an email value is rendered behind
    mailto:. *)
Theorem recordTarget_telecom_entry_by_entry
  (b : Bundle) (o : FhirToQrdaOptions) (w : World) (p : Patient) :
  findResource b "Patient" = Some p ->
  forallb formats (timestamps p o w) = true ->
  exists doc rendered,
    convertFhirToQrda b o w = (Normal doc, afterConversion w) /\
    path ["recordTarget"; "patientRole"; "telecom"] doc = Some (JArray rendered) /\
    rendered =
      (telecomChannel "tel:" (findIn (isSystem "phone") (telecom p)) ++
       telecomChannel "mailto:" (findIn (isSystem "email") (telecom p)))%list /\
    (telecom p = None \/ telecom p = Some [] -> rendered = []) /\
    (forall t, findIn (isSystem "phone") (telecom p) = Some t ->
               value t = Some "555-1234" ->
               In (JObject ["@_use" :-> "HP"; "@_value" :-> "tel:555-1234"]) rendered) /\
    (forall t v, findIn (isSystem "email") (telecom p) = Some t ->
                 value t = Some v ->
                 In (JObject ["@_use" :-> "HP"; "@_value" :-> "mailto:" ++ v]) rendered).
Proof.
  intros Hpatient Hformats.
  run_conversion Hpatient Hformats.
  eexists. eexists. split; [reflexivity|].
  split; [reflexivity|].
  split.
  - destruct (findIn (isSystem "phone") (telecom p)), (findIn (isSystem "email") (telecom p));
      reflexivity.
  - split; [|split].
    + intros [Hnone|Hnil]; rewrite ?Hnone, ?Hnil; reflexivity.
    + intros t Ht Hv. rewrite Ht. simpl. rewrite Hv. now left.
    + intros t v Ht Hv. rewrite Ht.
      destruct (findIn (isSystem "phone") (telecom p)); simpl; rewrite Hv; auto.
Qed.

(** C8, as the code has it.  On every input that yields a document, the
    measure reference's [setId] root is
    [options.measure?.setId || CMS68V14_MEASURE_GUID]: the default
    9A032D9C-3D9B-11E1-8634-00237D5BF174 when no measure is supplied, when
    the measure has no [setId], and when the [setId] is the empty string;
    a non-empty [setId] is used as supplied. *)
Theorem measure_setId_defaults_unless_nonempty
  (b : Bundle) (o : FhirToQrdaOptions) (w : World) (p : Patient) :
  findResource b "Patient" = Some p ->
  forallb formats (timestamps p o w) = true ->
  exists doc measureSection root,
    convertFhirToQrda b o w = (Normal doc, afterConversion w) /\
    optChain (sections doc) (fun ss => nth_error ss 0) = Some measureSection /\
    path ["section"; "entry"; "organizer"; "reference"; "externalDocument"; "setId"]
      measureSection = Some (JObject ["@_root" :-> root]) /\
    (measure o = None -> root = "9A032D9C-3D9B-11E1-8634-00237D5BF174") /\
    (optChain (measure o) Measure.setId = None \/
     optChain (measure o) Measure.setId = Some "" ->
     root = CMS68V14_MEASURE_GUID) /\
    (forall s, optChain (measure o) Measure.setId = Some s -> s <> "" -> root = s).
Proof.
  intros Hpatient Hformats.
  run_conversion Hpatient Hformats.
  do 3 eexists. split; [reflexivity|].
  split; [reflexivity|].
  split; [reflexivity|].
  split; [|split].
  - now intros ->.
  - now intros [-> | ->].
  - intros s -> Hs. unfold orElse.
    destruct (String.eqb_spec s ""); [contradiction|reflexivity].
Qed.

(** C9. [measure.id] and [measure.version] are not read into the output:
    two option records that agree on every other field give the same
    completion (the same document or the same error) and leave the same
    world behind, from the same bundle and the same starting world.  The
    version-specific identifier of the measure reference is the constant
    8A6D0454-8DF0-2D9F-018D-F6AEBA950637. *)
Theorem measure_id_and_version_do_not_interfere
  (b : Bundle) (o1 o2 : FhirToQrdaOptions) (w : World) :
  agreeUpToMeasureIdAndVersion o1 o2 ->
  convertFhirToQrda b o1 w = convertFhirToQrda b o2 w /\
  (forall p,
     findResource b "Patient" = Some p ->
     forallb formats (timestamps p o1 w) = true ->
     exists doc measureSection,
       convertFhirToQrda b o1 w = (Normal doc, afterConversion w) /\
       optChain (sections doc) (fun ss => nth_error ss 0) = Some measureSection /\
       path ["section"; "entry"; "organizer"; "reference"; "externalDocument"; "id"]
         measureSection =
         Some (JObject ["@_extension" :-> "8A6D0454-8DF0-2D9F-018D-F6AEBA950637";
                        "@_root" :-> OID_ECQM_VERSION_SPECIFIC_ID])).
Proof.
  intros (_ & Htitle & HsetId & Hperiod & Horg & Hauthor).
  split.
  - unfold convertFhirToQrda, construct.
    destruct (findResource b "Patient") as [p|]; [|reflexivity].
    unfold convert, buildStructuredBody, buildReportingParametersSection,
      buildMeasureSection, buildLegalAuthenticator, buildAuthor, buildRecordTarget,
      buildCustodian, buildDocumentationOf, buildParticipant, buildPatientDataSection,
      orgAddressOf.
    cbv beta iota zeta delta [bind liftCompletion liftEffect ret patient options bundle].
    now rewrite Htitle, HsetId, Hperiod, Horg, Hauthor.
  - intros p Hpatient Hformats.
    run_conversion Hpatient Hformats.
    do 2 eexists. split; [reflexivity|]. split; reflexivity.
Qed.

(** C10. The record target's address, on every input that yields a
    document.  A patient with at least one address
    gets an [addr] block built from the first one: its country is never
    empty (an absent or empty country becomes US), while an absent street
    line, city, state or postal code becomes the empty string.  A patient
    without an address gets no block: [addr] is [undefined]. *)
Theorem recordTarget_address_defaults
  (b : Bundle) (o : FhirToQrdaOptions) (w : World) (p : Patient) :
  findResource b "Patient" = Some p ->
  forallb formats (timestamps p o w) = true ->
  exists doc,
    convertFhirToQrda b o w = (Normal doc, afterConversion w) /\
    (forall a rest,
       address p = Some (a :: rest) ->
       exists street cityName stateName postal countryName,
         path ["recordTarget"; "patientRole"; "addr"] doc =
           Some (JObject [
             "@_use" :-> "HP";
             "streetAddressLine" :-> JString street;
             "city" :-> JString cityName;
             "state" :-> JString stateName;
             "postalCode" :-> JString postal;
             "country" :-> JString countryName
           ]) /\
         countryName <> "" /\
         (country a = None \/ country a = Some "" -> countryName = "US") /\
         (forall c, country a = Some c -> c <> "" -> countryName = c) /\
         (line a = None \/ line a = Some [] -> street = "") /\
         (city a = None -> cityName = "") /\
         (state a = None -> stateName = "") /\
         (postalCode a = None -> postal = "")) /\
    (address p = None \/ address p = Some [] ->
     path ["recordTarget"; "patientRole"; "addr"] doc = Some JUndefined).
Proof.
  intros Hpatient Hformats.
  run_conversion Hpatient Hformats.
  eexists. split; [reflexivity|]. split.
  - intros a rest Ha. rewrite Ha. cbn [first optChain hd_error].
    do 5 eexists. split; [reflexivity|].
    repeat split.
    + unfold orElse. destruct (country a) as [c|]; [|discriminate].
      destruct (String.eqb_spec c ""); [discriminate|assumption].
    + now intros [-> | ->].
    + intros c -> Hc. unfold orElse.
      destruct (String.eqb_spec c ""); [contradiction|reflexivity].
    + now intros [-> | ->].
    + now intros ->.
    + now intros ->.
    + now intros ->.
  - now intros [-> | ->].
Qed.

(** X5. A document comes back exactly when the bundle has a patient and the
    formatter accepts the four timestamps of the conversion. *)
Lemma convertFhirToQrda_returns_iff (b : Bundle) (o : FhirToQrdaOptions) (w : World) :
  (exists doc w', convertFhirToQrda b o w = (Normal doc, w')) <->
  (exists p, findResource b "Patient" = Some p /\ forallb formats (timestamps p o w) = true).
Proof.
  split.
  - intros (doc & w' & Hrun). revert Hrun.
    unfold convertFhirToQrda, construct.
    destruct (findResource b "Patient") as [p|]; [|discriminate].
    intros Hrun. exists p. split; [reflexivity|]. revert Hrun.
    unfold convert, buildStructuredBody, buildReportingParametersSection,
      buildMeasureSection, buildLegalAuthenticator, buildAuthor, buildRecordTarget,
      timestamps, formats.
    cbv beta iota zeta delta [bind liftCompletion liftEffect ret patient options bundle forallb].
    destruct (mapFhirToCcdaDateTime (fst (newDateToISOString w))); [|discriminate].
    destruct (mapFhirToCcdaDateTime (ToString (birthDate p) ++ "T00:00:00.000Z"));
      [|discriminate].
    destruct (mapFhirToCcdaDateTime (ReportingPeriod.start (reportingPeriod o)));
      [|discriminate].
    destruct (mapFhirToCcdaDateTime (ReportingPeriod.end_ (reportingPeriod o)));
      [|discriminate].
    reflexivity.
  - intros (p & Hpatient & Hformats).
    run_conversion Hpatient Hformats.
    eauto.
Qed.

(** With a patient in the bundle, the only way to fail is an error of the
    formatter on one of the four timestamps, passed on unchanged. *)
Lemma convertFhirToQrda_throws_inv
  (b : Bundle) (o : FhirToQrdaOptions) (w w' : World) (p : Patient) (e : JsError) :
  findResource b "Patient" = Some p ->
  convertFhirToQrda b o w = (Throw e, w') ->
  exists s, In s (timestamps p o w) /\ mapFhirToCcdaDateTime s = Throw e.
Proof.
  intros Hpatient.
  unfold convertFhirToQrda, construct, convert, buildStructuredBody,
    buildReportingParametersSection, buildMeasureSection, buildLegalAuthenticator,
    buildAuthor, buildRecordTarget, timestamps.
  rewrite Hpatient.
  cbv beta iota zeta delta [bind liftCompletion liftEffect ret patient options bundle].
  destruct (mapFhirToCcdaDateTime (fst (newDateToISOString w))) as [now|e1] eqn:Hnow.
  2: { intros [= <- _]. eexists. split; [|exact Hnow]. simpl; auto. }
  destruct (mapFhirToCcdaDateTime (ToString (birthDate p) ++ "T00:00:00.000Z"))
    as [birth|e2] eqn:Hbirth.
  2: { intros [= <- _]. eexists. split; [|exact Hbirth]. simpl; auto. }
  destruct (mapFhirToCcdaDateTime (ReportingPeriod.start (reportingPeriod o)))
    as [low|e3] eqn:Hlow.
  2: { intros [= <- _]. eexists. split; [|exact Hlow]. simpl; auto. }
  destruct (mapFhirToCcdaDateTime (ReportingPeriod.end_ (reportingPeriod o)))
    as [high|e4] eqn:Hhigh.
  2: { intros [= <- _]. eexists. split; [|exact Hhigh]. simpl; auto. }
  discriminate.
Qed.

(** ** Further properties of the conversion *)

Lemma orElse_supplied (x : option string) (s d : string) :
  supplied x s -> orElse x d = s.
Proof.
  intros [-> Hs]. unfold orElse.
  destruct (String.eqb_spec s ""); [contradiction|reflexivity].
Qed.

Lemma orElse_missing (x : option string) (d : string) :
  x = None \/ x = Some "" -> orElse x d = d.
Proof. now intros [-> | ->]. Qed.

(** X6. Formatter errors surface in call order.  With a patient in the bundle,
    the conversion throws the error of the first rejected string among the
    clock timestamp, the birth date, the period start and the period end.
    The clock has been read by then; one identifier has been drawn when the
    clock timestamp or the birth date is rejected, all four when it is an
    end of the reporting period. *)
Theorem conversion_fails_with_first_formatter_error
  (b : Bundle) (o : FhirToQrdaOptions) (w : World) (p : Patient) (e : JsError) :
  findResource b "Patient" = Some p ->
  firstError (timestamps p o w) = Some e ->
  convertFhirToQrda b o w =
    (Throw e,
     draw (if (formats (fst (newDateToISOString w)) &&
               formats (ToString (birthDate p) ++ "T00:00:00.000Z"))%bool
           then 4 else 1)
          (snd (newDateToISOString w))).
Proof.
  intros Hpatient.
  unfold convertFhirToQrda, construct, convert, buildStructuredBody,
    buildReportingParametersSection, buildMeasureSection, buildLegalAuthenticator,
    buildAuthor, buildRecordTarget, timestamps, formats.
  rewrite Hpatient.
  cbv beta iota zeta delta
    [bind liftCompletion liftEffect ret patient options bundle firstError draw andb].
  destruct (mapFhirToCcdaDateTime (fst (newDateToISOString w))) as [now|e1];
    [|now intros [= <-]].
  destruct (mapFhirToCcdaDateTime (ToString (birthDate p) ++ "T00:00:00.000Z"))
    as [birth|e2]; [|now intros [= <-]].
  destruct (mapFhirToCcdaDateTime (ReportingPeriod.start (reportingPeriod o)))
    as [low|e3]; [|now intros [= <-]].
  destruct (mapFhirToCcdaDateTime (ReportingPeriod.end_ (reportingPeriod o)))
    as [high|e4]; [discriminate|now intros [= <-]].
Qed.

(** X7. Every identifier-bearing place gets a draw of its own: the document id,
    the legal authenticator's entity id, the measure organizer id and the
    reporting-parameters act id are the first, second, third and fourth
    identifier drawn after the clock read. *)
Theorem identifiers_are_four_successive_draws
  (b : Bundle) (o : FhirToQrdaOptions) (w : World) (p : Patient) :
  findResource b "Patient" = Some p ->
  forallb formats (timestamps p o w) = true ->
  exists doc measureSection reportingParameters,
    convertFhirToQrda b o w = (Normal doc, afterConversion w) /\
    optChain (sections doc) (fun ss => nth_error ss 0) = Some measureSection /\
    optChain (sections doc) (fun ss => nth_error ss 1) = Some reportingParameters /\
    prop "id" doc =
      Some (JArray [JObject [
        "@_root" :-> fst (generateId (draw 0 (snd (newDateToISOString w))))]]) /\
    path ["legalAuthenticator"; "assignedEntity"; "id"] doc =
      Some (JObject [
        "@_root" :-> fst (generateId (draw 1 (snd (newDateToISOString w))))]) /\
    path ["section"; "entry"; "organizer"; "id"] measureSection =
      Some (JObject [
        "@_extension" :-> fst (generateId (draw 2 (snd (newDateToISOString w))));
        "@_root" :-> OID_PATIENT_ID]) /\
    path ["section"; "entry"; "act"; "id"] reportingParameters =
      Some (JObject [
        "@_extension" :-> fst (generateId (draw 3 (snd (newDateToISOString w))));
        "@_root" :-> OID_PATIENT_ID]).
Proof.
  intros Hpatient Hformats.
  run_conversion Hpatient Hformats.
  do 3 eexists. split; [reflexivity|].
  split; [reflexivity|]. split; [reflexivity|].
  repeat split.
Qed.

(** X8. The performer of the documented service carries the same two
    identifiers as the author and the custodian: the author NPI (default
    1250504853) and the organization id (default 117323). *)
Theorem performer_ids_match_author_and_custodian
  (b : Bundle) (o : FhirToQrdaOptions) (w : World) (p : Patient) :
  findResource b "Patient" = Some p ->
  forallb formats (timestamps p o w) = true ->
  exists doc authorId custodianId npi orgId,
    convertFhirToQrda b o w = (Normal doc, afterConversion w) /\
    path ["author"; "assignedAuthor"; "id"] doc = Some authorId /\
    path ["custodian"; "assignedCustodian"; "representedCustodianOrganization"; "id"] doc =
      Some custodianId /\
    path ["documentationOf"; "serviceEvent"; "performer"; "assignedEntity"; "id"] doc =
      Some (JArray [authorId; custodianId]) /\
    authorId = JObject ["@_extension" :-> JString npi; "@_root" :-> "2.16.840.1.113883.4.6"] /\
    custodianId = JObject ["@_extension" :-> JString orgId; "@_root" :-> OID_CCN_SYSTEM] /\
    (forall s, supplied (optChain (author o) Author.npi) s -> npi = s) /\
    (optChain (author o) Author.npi = None \/ optChain (author o) Author.npi = Some "" ->
     npi = "1250504853") /\
    (forall s, supplied (optChain (organization o) Organization.id) s -> orgId = s) /\
    (optChain (organization o) Organization.id = None \/
     optChain (organization o) Organization.id = Some "" ->
     orgId = "117323").
Proof.
  intros Hpatient Hformats.
  run_conversion Hpatient Hformats.
  do 5 eexists. split; [reflexivity|].
  do 5 (split; [reflexivity|]).
  split; [|split; [|split]].
  - intros s Hs. now apply orElse_supplied.
  - apply orElse_missing.
  - intros s Hs. now apply orElse_supplied.
  - apply orElse_missing.
Qed.

(** X9. One organization address feeds five blocks.  The author and the legal
    authenticator carry the same address, and so do the custodian, the
    performer and the performer's organization; when all five fields of
    [organization.address] are supplied and non-empty, every block holds
    exactly those values. *)
Theorem organization_address_fills_every_block
  (b : Bundle) (o : FhirToQrdaOptions) (w : World) (p : Patient) :
  findResource b "Patient" = Some p ->
  forallb formats (timestamps p o w) = true ->
  exists doc mailing office,
    convertFhirToQrda b o w = (Normal doc, afterConversion w) /\
    path ["author"; "assignedAuthor"; "addr"] doc = Some mailing /\
    path ["legalAuthenticator"; "assignedEntity"; "addr"] doc = Some mailing /\
    path ["custodian"; "assignedCustodian"; "representedCustodianOrganization"; "addr"] doc =
      Some office /\
    path ["documentationOf"; "serviceEvent"; "performer"; "assignedEntity"; "addr"] doc =
      Some office /\
    path ["documentationOf"; "serviceEvent"; "performer"; "assignedEntity";
          "representedOrganization"; "addr"] doc = Some office /\
    (forall a street cityName stateName postal countryName,
       orgAddressOf o = Some a ->
       supplied (OrganizationAddress.line a) street ->
       supplied (OrganizationAddress.city a) cityName ->
       supplied (OrganizationAddress.state a) stateName ->
       supplied (OrganizationAddress.postalCode a) postal ->
       supplied (OrganizationAddress.country a) countryName ->
       mailing = JObject [
         "streetAddressLine" :-> JString street;
         "city" :-> JString cityName;
         "state" :-> JString stateName;
         "postalCode" :-> JString postal;
         "country" :-> JString countryName
       ] /\
       office = JObject [
         "@_use" :-> "HP";
         "streetAddressLine" :-> JString street;
         "city" :-> JString cityName;
         "state" :-> JString stateName;
         "postalCode" :-> JString postal;
         "country" :-> JString countryName
       ]).
Proof.
  intros Hpatient Hformats.
  run_conversion Hpatient Hformats.
  unfold buildCustodian, buildDocumentationOf. cbn [options].
  do 3 eexists. split; [reflexivity|].
  do 5 (split; [reflexivity|]).
  intros a street cityName stateName postal countryName Ha Hl Hc Hs Hz Hk.
  rewrite Ha. cbn [optChain].
  rewrite !(orElse_supplied _ Hl), !(orElse_supplied _ Hc), !(orElse_supplied _ Hs),
    !(orElse_supplied _ Hz), !(orElse_supplied _ Hk).
  split; reflexivity.
Qed.

(** X10. A supplied, non-empty [organization.name] names both the custodian
    organization and the legal authenticator's organization.  Without one
    the two fall back to different literals: Medplum Test Deck for the
    custodian, Medplum Test System for the legal authenticator. *)
Theorem organization_name_and_its_two_defaults
  (b : Bundle) (o : FhirToQrdaOptions) (w : World) (p : Patient) :
  findResource b "Patient" = Some p ->
  forallb formats (timestamps p o w) = true ->
  exists doc custodianName authenticatorOrg,
    convertFhirToQrda b o w = (Normal doc, afterConversion w) /\
    path ["custodian"; "assignedCustodian"; "representedCustodianOrganization"; "name"] doc =
      Some (JString custodianName) /\
    path ["legalAuthenticator"; "assignedEntity"; "representedOrganization"; "name"] doc =
      Some (JString authenticatorOrg) /\
    (forall n, supplied (optChain (organization o) Organization.name) n ->
               custodianName = n /\ authenticatorOrg = n) /\
    (optChain (organization o) Organization.name = None \/
     optChain (organization o) Organization.name = Some "" ->
     custodianName = "Medplum Test Deck" /\ authenticatorOrg = "Medplum Test System").
Proof.
  intros Hpatient Hformats.
  run_conversion Hpatient Hformats.
  do 3 eexists. split; [reflexivity|].
  do 2 (split; [reflexivity|]).
  split.
  - intros n Hn. split; now apply orElse_supplied.
  - intros Hmissing. split; now apply orElse_missing.
Qed.

(** X11. [category] and [organization.npi] are accepted but never read: option
    records that agree on every other field give the same completion and
    the same final world. *)
Theorem category_and_organization_npi_do_not_interfere
  (b : Bundle) (o1 o2 : FhirToQrdaOptions) (w : World) :
  agreeUpToCategoryAndOrganizationNpi o1 o2 ->
  convertFhirToQrda b o1 w = convertFhirToQrda b o2 w.
Proof.
  intros (Hmeasure & Hperiod & Hname & Hid & Haddress & Hauthor).
  unfold convertFhirToQrda, construct.
  destruct (findResource b "Patient") as [p|]; [|reflexivity].
  unfold convert, buildStructuredBody, buildReportingParametersSection,
    buildMeasureSection, buildLegalAuthenticator, buildAuthor, buildRecordTarget,
    buildCustodian, buildDocumentationOf, buildParticipant, buildPatientDataSection.
  cbv beta iota zeta delta [bind liftCompletion liftEffect ret patient options bundle].
  now rewrite Hmeasure, Hperiod, Hname, Hid, Haddress, Hauthor.
Qed.

(** X12. The bundle matters only through its first Patient, and the Patient only
    through what [demographics] lists: resources of other types, later
    patients, further name entries and given names, further addresses and
    address lines, and further or other contact points change nothing. *)
Theorem only_the_subject_demographics_matter
  (b1 b2 : Bundle) (o : FhirToQrdaOptions) (w : World) (p1 p2 : Patient) :
  findResource b1 "Patient" = Some p1 ->
  findResource b2 "Patient" = Some p2 ->
  demographics p1 = demographics p2 ->
  convertFhirToQrda b1 o w = convertFhirToQrda b2 o w.
Proof.
  intros H1 H2 Hsame.
  unfold demographics in Hsame.
  injection Hsame as Hid Hgender Hbirth Hgiven Hfamily Haddress Hphone Hemail.
  unfold convertFhirToQrda, construct. rewrite H1, H2.
  unfold convert, buildStructuredBody, buildReportingParametersSection,
    buildMeasureSection, buildLegalAuthenticator, buildAuthor, buildRecordTarget,
    buildCustodian, buildDocumentationOf, buildParticipant, buildPatientDataSection.
  cbv beta iota zeta delta [bind liftCompletion liftEffect ret patient options bundle].
  rewrite Hid, Hgender, Hbirth, Hgiven, Hfamily.
  assert (Haddr :
    match first (address p1) with
    | Some a =>
        JObject ["@_use" :-> "HP";
                 "streetAddressLine" :-> nullish (first (line a)) "";
                 "city" :-> nullish (city a) "";
                 "state" :-> nullish (state a) "";
                 "postalCode" :-> nullish (postalCode a) "";
                 "country" :-> orElse (country a) "US"]
    | None => JUndefined
    end =
    match first (address p2) with
    | Some a =>
        JObject ["@_use" :-> "HP";
                 "streetAddressLine" :-> nullish (first (line a)) "";
                 "city" :-> nullish (city a) "";
                 "state" :-> nullish (state a) "";
                 "postalCode" :-> nullish (postalCode a) "";
                 "country" :-> orElse (country a) "US"]
    | None => JUndefined
    end).
  { destruct (first (address p1)) as [a1|], (first (address p2)) as [a2|];
      try discriminate; [|reflexivity].
    unfold addressView in Haddress. simpl in Haddress.
    injection Haddress as -> -> -> -> ->. reflexivity. }
  assert (Htel : forall scheme : string,
    match findIn (isSystem "phone") (telecom p1) with
    | Some t => JObject ["@_use" :-> "HP"; "@_value" :-> scheme ++ ToString (value t)]
    | None => JUndefined
    end =
    match findIn (isSystem "phone") (telecom p2) with
    | Some t => JObject ["@_use" :-> "HP"; "@_value" :-> scheme ++ ToString (value t)]
    | None => JUndefined
    end).
  { intros scheme.
    destruct (findIn (isSystem "phone") (telecom p1)) as [t1|],
             (findIn (isSystem "phone") (telecom p2)) as [t2|];
      try discriminate; [|reflexivity].
    simpl in Hphone. injection Hphone as ->. reflexivity. }
  assert (Hmail : forall scheme : string,
    match findIn (isSystem "email") (telecom p1) with
    | Some t => JObject ["@_use" :-> "HP"; "@_value" :-> scheme ++ ToString (value t)]
    | None => JUndefined
    end =
    match findIn (isSystem "email") (telecom p2) with
    | Some t => JObject ["@_use" :-> "HP"; "@_value" :-> scheme ++ ToString (value t)]
    | None => JUndefined
    end).
  { intros scheme.
    destruct (findIn (isSystem "email") (telecom p1)) as [t1|],
             (findIn (isSystem "email") (telecom p2)) as [t2|];
      try discriminate; [|reflexivity].
    simpl in Hemail. injection Hemail as ->. reflexivity. }
  rewrite Haddr, (Htel "tel:"), (Hmail "mailto:"). reflexivity.
Qed.

(** X13. The subject's name is the first given name and the family name of the
    first name entry; whatever is missing (the name list, its first entry's
    given names, the family name) is rendered as the empty string. *)
Theorem recordTarget_name_uses_first_entry
  (b : Bundle) (o : FhirToQrdaOptions) (w : World) (p : Patient) :
  findResource b "Patient" = Some p ->
  forallb formats (timestamps p o w) = true ->
  exists doc givenName familyName,
    convertFhirToQrda b o w = (Normal doc, afterConversion w) /\
    path ["recordTarget"; "patientRole"; "patient"; "name"] doc =
      Some (JObject ["given" :-> JString givenName; "family" :-> JString familyName]) /\
    (name p = None \/ name p = Some [] -> givenName = "" /\ familyName = "") /\
    (forall n rest,
       name p = Some (n :: rest) ->
       (forall g gs, given n = Some (g :: gs) -> givenName = g) /\
       (given n = None \/ given n = Some [] -> givenName = "") /\
       (forall f, family n = Some f -> familyName = f) /\
       (family n = None -> familyName = "")).
Proof.
  intros Hpatient Hformats.
  run_conversion Hpatient Hformats.
  do 3 eexists. split; [reflexivity|]. split; [reflexivity|]. split.
  - now intros [-> | ->].
  - intros n rest ->. cbn [first optChain hd_error]. repeat split.
    + now intros g gs ->.
    + now intros [-> | ->].
    + now intros f ->.
    + now intros ->.
Qed.

(** X14. The birth time is the formatter's result on the birth date with
    midnight UTC appended.  A patient without [birthDate] is not rejected:
    the formatter is handed the string undefinedT00:00:00.000Z. *)
Theorem birthTime_formats_birth_date_at_midnight
  (b : Bundle) (o : FhirToQrdaOptions) (w : World) (p : Patient) :
  findResource b "Patient" = Some p ->
  forallb formats (timestamps p o w) = true ->
  exists doc birth,
    convertFhirToQrda b o w = (Normal doc, afterConversion w) /\
    path ["recordTarget"; "patientRole"; "patient"; "birthTime"] doc =
      Some (JObject ["@_value" :-> birth]) /\
    (forall d, birthDate p = Some d ->
               mapFhirToCcdaDateTime (d ++ "T00:00:00.000Z") = Normal birth) /\
    (birthDate p = None ->
     mapFhirToCcdaDateTime "undefinedT00:00:00.000Z" = Normal birth).
Proof.
  intros Hpatient Hformats.
  run_conversion Hpatient Hformats.
  eexists. exists birth. split; [reflexivity|]. split; [reflexivity|]. split.
  - intros d Hd. rewrite Hd in Hbirth. exact Hbirth.
  - intros Hd. rewrite Hd in Hbirth. exact Hbirth.
Qed.

(** X15. A phone or email contact point without a [value] is still rendered: its
    entry reads tel:undefined or mailto:undefined. *)
Theorem telecom_without_value_renders_undefined
  (b : Bundle) (o : FhirToQrdaOptions) (w : World) (p : Patient) :
  findResource b "Patient" = Some p ->
  forallb formats (timestamps p o w) = true ->
  exists doc rendered,
    convertFhirToQrda b o w = (Normal doc, afterConversion w) /\
    path ["recordTarget"; "patientRole"; "telecom"] doc = Some (JArray rendered) /\
    (forall t, findIn (isSystem "phone") (telecom p) = Some t -> value t = None ->
               In (JObject ["@_use" :-> "HP"; "@_value" :-> "tel:undefined"]) rendered) /\
    (forall t, findIn (isSystem "email") (telecom p) = Some t -> value t = None ->
               In (JObject ["@_use" :-> "HP"; "@_value" :-> "mailto:undefined"]) rendered).
Proof.
  intros Hpatient Hformats.
  run_conversion Hpatient Hformats.
  do 2 eexists. split; [reflexivity|]. split; [reflexivity|]. split.
  - intros t -> Hv. simpl. rewrite Hv. now left.
  - intros t -> Hv.
    destruct (findIn (isSystem "phone") (telecom p)); simpl; rewrite Hv; auto.
Qed.

(** X16. The measure section's narrative table and its machine-readable entry
    tell the same story: the table row is the title, the version-specific
    identifier and an empty cell, and the referenced document carries that
    title as its text and that identifier as its id.  The title is
    [measure.title] when supplied and non-empty, else the built-in title of
    the reference measure. *)
Theorem measure_table_matches_reference
  (b : Bundle) (o : FhirToQrdaOptions) (w : World) (p : Patient) :
  findResource b "Patient" = Some p ->
  forallb formats (timestamps p o w) = true ->
  exists doc measureSection measureTitle measureVersionId,
    convertFhirToQrda b o w = (Normal doc, afterConversion w) /\
    optChain (sections doc) (fun ss => nth_error ss 0) = Some measureSection /\
    path ["section"; "text"; "table"; "tbody"; "tr"; "td"] measureSection =
      Some (JArray [JString measureTitle; JString measureVersionId; JString ""]) /\
    path ["section"; "entry"; "organizer"; "reference"; "externalDocument"; "text"]
      measureSection = Some (JString measureTitle) /\
    path ["section"; "entry"; "organizer"; "reference"; "externalDocument"; "id"]
      measureSection =
      Some (JObject ["@_extension" :-> JString measureVersionId;
                     "@_root" :-> OID_ECQM_VERSION_SPECIFIC_ID]) /\
    (forall t, supplied (optChain (measure o) Measure.title) t -> measureTitle = t) /\
    (optChain (measure o) Measure.title = None \/
     optChain (measure o) Measure.title = Some "" ->
     measureTitle =
       "Percentage of visits for which the eligible clinician attests to documenting a list of current medications using all immediate resources available on the date of the encounter").
Proof.
  intros Hpatient Hformats.
  run_conversion Hpatient Hformats.
  do 4 eexists. split; [reflexivity|].
  do 4 (split; [reflexivity|]).
  split.
  - intros t Ht. now apply orElse_supplied.
  - apply orElse_missing.
Qed.

(** X17. The patient's [id] and [gender] are copied as they are ([undefined]
    when absent; the gender is not translated to another code system),
    while the race and ethnicity codes are the same two literals for every
    patient. *)
Theorem subject_codes_copied_or_fixed
  (b : Bundle) (o : FhirToQrdaOptions) (w : World) (p : Patient) :
  findResource b "Patient" = Some p ->
  forallb formats (timestamps p o w) = true ->
  exists doc,
    convertFhirToQrda b o w = (Normal doc, afterConversion w) /\
    path ["recordTarget"; "patientRole"; "id"] doc =
      Some (JObject ["@_extension" :-> ofOptional (id p); "@_root" :-> OID_PATIENT_ID]) /\
    path ["recordTarget"; "patientRole"; "patient"; "administrativeGenderCode"; "@_code"] doc =
      Some (ofOptional (gender p)) /\
    path ["recordTarget"; "patientRole"; "patient"; "raceCode"; "@_code"] doc =
      Some (JString "2106-3") /\
    path ["recordTarget"; "patientRole"; "patient"; "ethnicGroupCode"; "@_code"] doc =
      Some (JString "2135-2").
Proof.
  intros Hpatient Hformats.
  run_conversion Hpatient Hformats.
  eexists. split; [reflexivity|]. repeat split.
Qed.

(** X18. The authoring device carries one name twice: [manufacturerModelName]
    and [softwareName] are both [author.name] when supplied and non-empty,
    else Medplum Test System. *)
Theorem authoring_device_named_after_author
  (b : Bundle) (o : FhirToQrdaOptions) (w : World) (p : Patient) :
  findResource b "Patient" = Some p ->
  forallb formats (timestamps p o w) = true ->
  exists doc authorName,
    convertFhirToQrda b o w = (Normal doc, afterConversion w) /\
    path ["author"; "assignedAuthor"; "assignedAuthoringDevice"] doc =
      Some (JObject ["manufacturerModelName" :-> JString authorName;
                     "softwareName" :-> JString authorName]) /\
    (forall n, supplied (optChain (author o) Author.name) n -> authorName = n) /\
    (optChain (author o) Author.name = None \/ optChain (author o) Author.name = Some "" ->
     authorName = "Medplum Test System").
Proof.
  intros Hpatient Hformats.
  run_conversion Hpatient Hformats.
  do 2 eexists. split; [reflexivity|]. split; [reflexivity|]. split.
  - intros n Hn. now apply orElse_supplied.
  - apply orElse_missing.
Qed.

(** X19. Every returned document has the same sixteen top-level keys in the same
    order, whatever the bundle and the options hold; optional input only
    changes values below them. *)
Theorem document_keys_are_fixed
  (b : Bundle) (o : FhirToQrdaOptions) (w : World) (p : Patient) :
  findResource b "Patient" = Some p ->
  forallb formats (timestamps p o w) = true ->
  exists doc,
    convertFhirToQrda b o w = (Normal doc, afterConversion w) /\
    keys doc =
      ["realmCode"; "typeId"; "templateId"; "id"; "code"; "title"; "effectiveTime";
       "confidentialityCode"; "languageCode"; "recordTarget"; "author"; "custodian";
       "legalAuthenticator"; "participant"; "documentationOf"; "component"] /\
    optChain (path ["recordTarget"; "patientRole"] doc) (fun r => Some (keys r)) =
      Some ["id"; "addr"; "telecom"; "patient"].
Proof.
  intros Hpatient Hformats.
  run_conversion Hpatient Hformats.
  eexists. split; [reflexivity|]. split; reflexivity.
Qed.

End Properties.

(** ** The theorems at work on the sample bundle *)

Module SampleRuns.

Import Sample.

(** The patient is found behind an entry without a resource and an
    entry of another type. *)
Example sample_patient_is_found :
  findResource bundleWithPatient "Patient" = Some jane.
Proof. reflexivity. Qed.

(** An error of the formatter ends the conversion; by then the clock has
    been read and all four identifiers have been drawn. *)
Example formatter_error_is_passed_on :
  run bundleWithPatient openEndedOptions = (Throw (Error "Invalid time value"), (1, 4)).
Proof. reflexivity. Qed.

Lemma no_patient_in_sample :
  forall e r, In e (entries bundleWithoutPatient) -> resource e = Some r ->
              resourceType r <> "Patient".
Proof.
  intros e r [<-|[<-|[]]] Hr; inversion Hr; subst; discriminate.
Defined.

Lemma missing_patient_witness :
  run bundleWithoutPatient minimalOptions =
    (Throw (Error "Patient not found in bundle"), w0).
Proof.
  apply (missing_patient_throws_before_building
           (oids := Sample.oids) (qrdaOids := Sample.qrdaOids)
           (collab := Sample.collaborators)
           bundleWithoutPatient minimalOptions w0 no_patient_in_sample).
Defined.

Lemma three_sections_witness :
  findResource bundleWithPatient "Patient" = Some jane /\
  accepted minimalOptions = true /\
  exists doc, run bundleWithPatient minimalOptions = (Normal doc, (1, 4)) /\
              option_map (@length JsValue) (sections doc) = Some 3.
Proof.
  split; [reflexivity|]. split; [reflexivity|].
  destruct (structuredBody_has_three_sections_in_order
              (oids := Sample.oids) (qrdaOids := Sample.qrdaOids)
              (collab := Sample.collaborators)
              bundleWithPatient minimalOptions w0 (p := jane) eq_refl eq_refl)
    as (doc & m & r & d & Hrun & Hsections & _).
  exists doc. split; [exact Hrun|]. rewrite Hsections. reflexivity.
Defined.

Lemma header_templateId_witness :
  findResource bundleWithPatient "Patient" = Some jane /\
  accepted minimalOptions = true /\
  exists doc, run bundleWithPatient minimalOptions = (Normal doc, (1, 4)) /\
              prop "templateId" doc =
                Some (JArray [
                  JObject ["@_root" :-> "2.16.840.1.113883.10.20.22.1.1";
                           "@_extension" :-> "2015-08-01"];
                  JObject ["@_root" :-> "2.16.840.1.113883.10.20.24.1.1";
                           "@_extension" :-> "2017-08-01"];
                  JObject ["@_root" :-> "2.16.840.1.113883.10.20.24.1.2";
                           "@_extension" :-> "2021-08-01"];
                  JObject ["@_root" :-> "2.16.840.1.113883.10.20.24.1.3";
                           "@_extension" :-> "2022-02-01"]
                ]).
Proof.
  split; [reflexivity|]. split; [reflexivity|].
  destruct (header_templateId_is_registry_set
              (oids := Sample.oids) (qrdaOids := Sample.qrdaOids)
              (collab := Sample.collaborators)
              bundleWithPatient minimalOptions w0 (p := jane) eq_refl eq_refl)
    as (doc & Hrun & Hid & Hset).
  exists doc. split; [exact Hrun|]. rewrite Hid, Hset. reflexivity.
Defined.

Lemma reporting_period_2023_witness :
  findResource bundleWithPatient "Patient" = Some jane /\
  accepted minimalOptions = true /\
  exists doc reportingParameters,
    run bundleWithPatient minimalOptions = (Normal doc, (1, 4)) /\
    optChain (sections doc) (fun ss => nth_error ss 1) = Some reportingParameters /\
    path ["section"; "entry"; "act"; "effectiveTime"] reportingParameters =
      Some (JObject ["low" :-> JObject ["@_value" :-> "20230101"];
                     "high" :-> JObject ["@_value" :-> "20231231"]]).
Proof.
  split; [reflexivity|]. split; [reflexivity|].
  destruct (reporting_period_fills_act_effectiveTime
              (oids := Sample.oids) (qrdaOids := Sample.qrdaOids)
              (collab := Sample.collaborators)
              bundleWithPatient minimalOptions w0 (p := jane) eq_refl eq_refl)
    as (doc & r & low & high & Hrun & Hsection & Hlow & Hhigh & Htime).
  exists doc, r. split; [exact Hrun|]. split; [exact Hsection|].
  rewrite Htime. inversion Hlow. inversion Hhigh. reflexivity.
Defined.

Lemma patient_data_section_witness :
  findResource bundleWithPatient "Patient" = Some jane /\
  accepted minimalOptions = true /\
  exists doc patientData,
    run bundleWithPatient minimalOptions = (Normal doc, (1, 4)) /\
    optChain (sections doc) (fun ss => nth_error ss 2) = Some patientData /\
    path ["section"; "entry"] patientData = Some (JArray []).
Proof.
  split; [reflexivity|]. split; [reflexivity|].
  destruct (patient_data_section_has_no_entries
              (oids := Sample.oids) (qrdaOids := Sample.qrdaOids)
              (collab := Sample.collaborators)
              bundleWithPatient minimalOptions w0 (p := jane) eq_refl eq_refl)
    as (doc & d & Hrun & Hsection & Hentry & _).
  exists doc, d. auto.
Defined.

Lemma header_timestamps_witness :
  findResource bundleWithPatient "Patient" = Some jane /\
  accepted minimalOptions = true /\
  exists doc,
    run bundleWithPatient minimalOptions = (Normal doc, (1, 4)) /\
    prop "effectiveTime" doc =
      Some (JArray [JObject ["@_value" :-> "20250301T100000.000Z"]]) /\
    path ["author"; "time"] doc = Some (JObject ["@_value" :-> "20250301T100000.000Z"]) /\
    path ["legalAuthenticator"; "time"] doc =
      Some (JObject ["@_value" :-> "20250301T100000.000Z"]).
Proof.
  split; [reflexivity|]. split; [reflexivity|].
  destruct (header_timestamps_share_one_clock_read
              (oids := Sample.oids) (qrdaOids := Sample.qrdaOids)
              (collab := Sample.collaborators)
              bundleWithPatient minimalOptions w0 (p := jane) eq_refl eq_refl)
    as (doc & now & Hrun & Hnow & Heff & Hauthor & Hlegal).
  exists doc. inversion Hnow. subst now. auto.
Defined.

Lemma telecom_witness :
  findResource bundleWithPatient "Patient" = Some jane /\
  accepted minimalOptions = true /\
  exists doc,
    run bundleWithPatient minimalOptions = (Normal doc, (1, 4)) /\
    path ["recordTarget"; "patientRole"; "telecom"] doc =
      Some (JArray [
        JObject ["@_use" :-> "HP"; "@_value" :-> "tel:555-1234"];
        JObject ["@_use" :-> "HP"; "@_value" :-> "mailto:jane@example.com"]
      ]).
Proof.
  split; [reflexivity|]. split; [reflexivity|].
  destruct (recordTarget_telecom_entry_by_entry
              (oids := Sample.oids) (qrdaOids := Sample.qrdaOids)
              (collab := Sample.collaborators)
              bundleWithPatient minimalOptions w0 (p := jane) eq_refl eq_refl)
    as (doc & rendered & Hrun & Htelecom & Hrendered & _).
  exists doc. split; [exact Hrun|]. rewrite Htelecom, Hrendered. reflexivity.
Defined.

Lemma measure_setId_witness :
  findResource bundleWithPatient "Patient" = Some jane /\
  accepted minimalOptions = true /\
  exists doc measureSection,
    run bundleWithPatient minimalOptions = (Normal doc, (1, 4)) /\
    optChain (sections doc) (fun ss => nth_error ss 0) = Some measureSection /\
    path ["section"; "entry"; "organizer"; "reference"; "externalDocument"; "setId"]
      measureSection =
      Some (JObject ["@_root" :-> "9A032D9C-3D9B-11E1-8634-00237D5BF174"]).
Proof.
  split; [reflexivity|]. split; [reflexivity|].
  destruct (measure_setId_defaults_unless_nonempty
              (oids := Sample.oids) (qrdaOids := Sample.qrdaOids)
              (collab := Sample.collaborators)
              bundleWithPatient minimalOptions w0 (p := jane) eq_refl eq_refl)
    as (doc & m & root & Hrun & Hsection & HsetId & Hnone & _).
  exists doc, m. rewrite HsetId, (Hnone eq_refl). auto.
Defined.

(** C8, as stated, fails: a [setId] that is supplied as the empty string is
    not used; the reference still carries the default identifier. *)
Lemma supplied_empty_setId_is_replaced :
  optChain (measure emptySetIdOptions) Measure.setId = Some "" /\
  exists doc measureSection,
    run bundleWithPatient emptySetIdOptions = (Normal doc, (1, 4)) /\
    optChain (sections doc) (fun ss => nth_error ss 0) = Some measureSection /\
    path ["section"; "entry"; "organizer"; "reference"; "externalDocument"; "setId"; "@_root"]
      measureSection = Some (JString "9A032D9C-3D9B-11E1-8634-00237D5BF174") /\
    path ["section"; "entry"; "organizer"; "reference"; "externalDocument"; "setId"; "@_root"]
      measureSection <> Some (JString "").
Proof.
  split; [reflexivity|].
  do 2 eexists. split; [reflexivity|]. split; [reflexivity|].
  split; [reflexivity|discriminate].
Qed.

Lemma sample_measures_agree :
  agreeUpToMeasureIdAndVersion (optionsWith measureA) (optionsWith measureB).
Proof. repeat split. Defined.

Lemma noninterference_witness :
  Measure.id measureA <> Measure.id measureB /\
  Measure.version measureA <> Measure.version measureB /\
  run bundleWithPatient (optionsWith measureA) = run bundleWithPatient (optionsWith measureB) /\
  exists doc measureSection,
    run bundleWithPatient (optionsWith measureA) = (Normal doc, (1, 4)) /\
    optChain (sections doc) (fun ss => nth_error ss 0) = Some measureSection /\
    path ["section"; "entry"; "organizer"; "reference"; "externalDocument"; "id"]
      measureSection =
      Some (JObject ["@_extension" :-> "8A6D0454-8DF0-2D9F-018D-F6AEBA950637";
                     "@_root" :-> "2.16.840.1.113883.4.738"]).
Proof.
  split; [discriminate|]. split; [discriminate|].
  destruct (measure_id_and_version_do_not_interfere
              (oids := Sample.oids) (qrdaOids := Sample.qrdaOids)
              (collab := Sample.collaborators)
              bundleWithPatient w0 sample_measures_agree)
    as [Hsame Hconstant].
  split; [exact Hsame|].
  destruct (Hconstant jane eq_refl eq_refl) as (doc & m & Hrun & Hsection & Hid).
  exists doc, m. split; [exact Hrun|]. split; [exact Hsection|exact Hid].
Defined.

Lemma address_witness :
  findResource bundleWithPatient "Patient" = Some jane /\
  accepted minimalOptions = true /\
  exists doc street cityName postal,
    run bundleWithPatient minimalOptions = (Normal doc, (1, 4)) /\
    path ["recordTarget"; "patientRole"; "addr"] doc =
      Some (JObject [
        "@_use" :-> "HP";
        "streetAddressLine" :-> JString street;
        "city" :-> JString cityName;
        "state" :-> "";
        "postalCode" :-> JString postal;
        "country" :-> "US"
      ]).
Proof.
  split; [reflexivity|]. split; [reflexivity|].
  destruct (recordTarget_address_defaults
              (oids := Sample.oids) (qrdaOids := Sample.qrdaOids)
              (collab := Sample.collaborators)
              bundleWithPatient minimalOptions w0 (p := jane) eq_refl eq_refl)
    as (doc & Hrun & Haddr & _).
  destruct (Haddr homeAddress [] eq_refl)
    as (street & cityName & stateName & postal & countryName
        & Hpath & _ & Hcountry & _ & _ & _ & Hstate & _).
  exists doc, street, cityName, postal. split; [exact Hrun|].
  rewrite Hpath, (Hcountry (or_intror eq_refl)), (Hstate eq_refl). reflexivity.
Defined.

(** *** Bundle queries and further properties on the sample data *)

Lemma first_match_witness :
  findResource bundleWithTwoPatients "Patient" = Some jane /\
  findResourcesByType bundleWithTwoPatients "Patient" = [jane; john].
Proof.
  split; [|reflexivity].
  apply (findResource_first_match bundleWithTwoPatients
           [{| resource := None |}; {| resource := Some encounter |}]
           [{| resource := Some john |}]
           {| resource := Some jane |} eq_refl).
  - intros e' [<-|[<-|[]]]; reflexivity.
  - reflexivity.
  - reflexivity.
Defined.

Lemma first_formatter_error_witness :
  findResource bundleWithPatient "Patient" = Some jane /\
  firstError (collab := collaborators) (timestamps (collab := collaborators) jane openEndedOptions w0)
    = Some (Error "Invalid time value") /\
  run bundleWithPatient openEndedOptions = (Throw (Error "Invalid time value"), (1, 4)).
Proof.
  split; [reflexivity|]. split; [reflexivity|].
  apply (conversion_fails_with_first_formatter_error
           (oids := oids) (qrdaOids := qrdaOids) (collab := collaborators)
           bundleWithPatient openEndedOptions w0 (p := jane) eq_refl eq_refl).
Defined.

Lemma identifiers_witness :
  findResource bundleWithPatient "Patient" = Some jane /\
  accepted minimalOptions = true /\
  exists doc measureSection reportingParameters,
    run bundleWithPatient minimalOptions = (Normal doc, (1, 4)) /\
    optChain (sections doc) (fun ss => nth_error ss 0) = Some measureSection /\
    optChain (sections doc) (fun ss => nth_error ss 1) = Some reportingParameters /\
    prop "id" doc = Some (JArray [JObject ["@_root" :-> "urn:uuid:00000000"]]) /\
    path ["legalAuthenticator"; "assignedEntity"; "id"] doc =
      Some (JObject ["@_root" :-> "urn:uuid:00000001"]) /\
    path ["section"; "entry"; "organizer"; "id"] measureSection =
      Some (JObject ["@_extension" :-> "urn:uuid:00000002"; "@_root" :-> "1.3.6.1.4.1.115"]) /\
    path ["section"; "entry"; "act"; "id"] reportingParameters =
      Some (JObject ["@_extension" :-> "urn:uuid:00000003"; "@_root" :-> "1.3.6.1.4.1.115"]).
Proof.
  split; [reflexivity|]. split; [reflexivity|].
  destruct (identifiers_are_four_successive_draws
              (oids := oids) (qrdaOids := qrdaOids) (collab := collaborators)
              bundleWithPatient minimalOptions w0 (p := jane) eq_refl eq_refl)
    as (doc & m & r & Hrun & Hm & Hr & H1 & H2 & H3 & H4).
  exists doc, m, r. repeat split; assumption.
Defined.

Lemma supplied_npi : supplied (optChain (author (clinicOptions None None)) Author.npi) "1234567893".
Proof. split; [reflexivity|discriminate]. Defined.

Lemma supplied_org_id :
  supplied (optChain (organization (clinicOptions None None)) Organization.id) "440011".
Proof. split; [reflexivity|discriminate]. Defined.

Lemma performer_ids_witness :
  findResource bundleWithPatient "Patient" = Some jane /\
  accepted (clinicOptions None None) = true /\
  exists doc,
    run bundleWithPatient (clinicOptions None None) = (Normal doc, (1, 4)) /\
    path ["documentationOf"; "serviceEvent"; "performer"; "assignedEntity"; "id"] doc =
      Some (JArray [
        JObject ["@_extension" :-> "1234567893"; "@_root" :-> "2.16.840.1.113883.4.6"];
        JObject ["@_extension" :-> "440011"; "@_root" :-> "2.16.840.1.113883.4.336"]
      ]).
Proof.
  split; [reflexivity|]. split; [reflexivity|].
  destruct (performer_ids_match_author_and_custodian
              (oids := oids) (qrdaOids := qrdaOids) (collab := collaborators)
              bundleWithPatient (clinicOptions None None) w0 (p := jane) eq_refl eq_refl)
    as (doc & authorId & custodianId & npi & orgId
        & Hrun & _ & _ & Hids & -> & -> & Hnpi & _ & Horg & _).
  exists doc. split; [exact Hrun|].
  rewrite Hids, (Hnpi _ supplied_npi), (Horg _ supplied_org_id). reflexivity.
Defined.

Lemma organization_address_witness :
  findResource bundleWithPatient "Patient" = Some jane /\
  accepted (clinicOptions None None) = true /\
  exists doc,
    run bundleWithPatient (clinicOptions None None) = (Normal doc, (1, 4)) /\
    path ["legalAuthenticator"; "assignedEntity"; "addr"] doc =
      Some (JObject [
        "streetAddressLine" :-> "9 Elm Street";
        "city" :-> "Boston";
        "state" :-> "MA";
        "postalCode" :-> "02110";
        "country" :-> "US"
      ]).
Proof.
  split; [reflexivity|]. split; [reflexivity|].
  destruct (organization_address_fills_every_block
              (oids := oids) (qrdaOids := qrdaOids) (collab := collaborators)
              bundleWithPatient (clinicOptions None None) w0 (p := jane) eq_refl eq_refl)
    as (doc & mailing & office & Hrun & _ & Hlegal & _ & _ & _ & Hsupplied).
  exists doc. split; [exact Hrun|].
  destruct (Hsupplied clinicAddress "9 Elm Street" "Boston" "MA" "02110" "US" eq_refl)
    as [-> _]; try (split; [reflexivity|discriminate]).
  exact Hlegal.
Defined.

Lemma organization_name_witness :
  findResource bundleWithPatient "Patient" = Some jane /\
  accepted minimalOptions = true /\
  exists doc,
    run bundleWithPatient minimalOptions = (Normal doc, (1, 4)) /\
    path ["custodian"; "assignedCustodian"; "representedCustodianOrganization"; "name"] doc =
      Some (JString "Medplum Test Deck") /\
    path ["legalAuthenticator"; "assignedEntity"; "representedOrganization"; "name"] doc =
      Some (JString "Medplum Test System").
Proof.
  split; [reflexivity|]. split; [reflexivity|].
  destruct (organization_name_and_its_two_defaults
              (oids := oids) (qrdaOids := qrdaOids) (collab := collaborators)
              bundleWithPatient minimalOptions w0 (p := jane) eq_refl eq_refl)
    as (doc & custodianName & authenticatorOrg & Hrun & Hc & Hl & _ & Hdefault).
  exists doc. destruct (Hdefault (or_introl eq_refl)) as [<- <-]. auto.
Defined.

Lemma clinic_options_agree :
  agreeUpToCategoryAndOrganizationNpi
    (clinicOptions (Some CategoryI) (Some "1234567893"))
    (clinicOptions (Some CategoryIII) None).
Proof. repeat split. Defined.

Lemma category_and_npi_witness :
  run bundleWithPatient (clinicOptions (Some CategoryI) (Some "1234567893")) =
  run bundleWithPatient (clinicOptions (Some CategoryIII) None).
Proof.
  apply (category_and_organization_npi_do_not_interfere
           (oids := oids) (qrdaOids := qrdaOids) (collab := collaborators)
           bundleWithPatient w0 clinic_options_agree).
Defined.

Lemma demographics_witness :
  jane <> janeInFull /\
  findResource bundleWithPatient "Patient" = Some jane /\
  findResource bundleInFull "Patient" = Some janeInFull /\
  demographics jane = demographics janeInFull /\
  run bundleWithPatient minimalOptions = run bundleInFull minimalOptions.
Proof.
  split; [discriminate|]. split; [reflexivity|]. split; [reflexivity|].
  split; [reflexivity|].
  apply (only_the_subject_demographics_matter
           (oids := oids) (qrdaOids := qrdaOids) (collab := collaborators)
           bundleWithPatient bundleInFull minimalOptions w0
           (p1 := jane) (p2 := janeInFull) eq_refl eq_refl eq_refl).
Defined.

Lemma name_witness :
  findResource bundleInFull "Patient" = Some janeInFull /\
  exists doc,
    run bundleInFull minimalOptions = (Normal doc, (1, 4)) /\
    path ["recordTarget"; "patientRole"; "patient"; "name"] doc =
      Some (JObject ["given" :-> "Jane"; "family" :-> "Doe"]).
Proof.
  split; [reflexivity|].
  destruct (recordTarget_name_uses_first_entry
              (oids := oids) (qrdaOids := qrdaOids) (collab := collaborators)
              bundleInFull minimalOptions w0 (p := janeInFull) eq_refl eq_refl)
    as (doc & givenName & familyName & Hrun & Hname & _ & Hfirst).
  exists doc. split; [exact Hrun|].
  destruct (Hfirst _ _ eq_refl) as (Hgiven & _ & Hfamily & _).
  rewrite Hname, (Hgiven _ _ eq_refl), (Hfamily _ eq_refl). reflexivity.
Defined.

Lemma birthTime_witness :
  findResource bundleWithJohn "Patient" = Some john /\
  birthDate john = None /\
  exists doc,
    run bundleWithJohn minimalOptions = (Normal doc, (1, 4)) /\
    path ["recordTarget"; "patientRole"; "patient"; "birthTime"] doc =
      Some (JObject ["@_value" :-> "undefinedT000000.000Z"]).
Proof.
  split; [reflexivity|]. split; [reflexivity|].
  destruct (birthTime_formats_birth_date_at_midnight
              (oids := oids) (qrdaOids := qrdaOids) (collab := collaborators)
              bundleWithJohn minimalOptions w0 (p := john) eq_refl eq_refl)
    as (doc & birth & Hrun & Htime & _ & Hundefined).
  exists doc. split; [exact Hrun|].
  specialize (Hundefined eq_refl). injection Hundefined as <-. exact Htime.
Defined.

Lemma telecom_undefined_witness :
  findResource bundleWithJohn "Patient" = Some john /\
  exists doc rendered,
    run bundleWithJohn minimalOptions = (Normal doc, (1, 4)) /\
    path ["recordTarget"; "patientRole"; "telecom"] doc = Some (JArray rendered) /\
    In (JObject ["@_use" :-> "HP"; "@_value" :-> "tel:undefined"]) rendered.
Proof.
  split; [reflexivity|].
  destruct (telecom_without_value_renders_undefined
              (oids := oids) (qrdaOids := qrdaOids) (collab := collaborators)
              bundleWithJohn minimalOptions w0 (p := john) eq_refl eq_refl)
    as (doc & rendered & Hrun & Htelecom & Hphone & _).
  exists doc, rendered. split; [exact Hrun|]. split; [exact Htelecom|].
  exact (Hphone _ eq_refl eq_refl).
Defined.

Lemma supplied_title :
  supplied (optChain (measure (optionsWith measureA)) Measure.title)
    "Documentation of Current Medications".
Proof. split; [reflexivity|discriminate]. Defined.

Lemma measure_table_witness :
  findResource bundleWithPatient "Patient" = Some jane /\
  accepted (optionsWith measureA) = true /\
  exists doc measureSection,
    run bundleWithPatient (optionsWith measureA) = (Normal doc, (1, 4)) /\
    optChain (sections doc) (fun ss => nth_error ss 0) = Some measureSection /\
    path ["section"; "entry"; "organizer"; "reference"; "externalDocument"; "text"]
      measureSection = Some (JString "Documentation of Current Medications").
Proof.
  split; [reflexivity|]. split; [reflexivity|].
  destruct (measure_table_matches_reference
              (oids := oids) (qrdaOids := qrdaOids) (collab := collaborators)
              bundleWithPatient (optionsWith measureA) w0 (p := jane) eq_refl eq_refl)
    as (doc & m & measureTitle & versionId & Hrun & Hm & _ & Htext & _ & Htitle & _).
  exists doc, m. split; [exact Hrun|]. split; [exact Hm|].
  rewrite Htext, (Htitle _ supplied_title). reflexivity.
Defined.

Lemma subject_codes_witness :
  findResource bundleWithJohn "Patient" = Some john /\
  exists doc,
    run bundleWithJohn minimalOptions = (Normal doc, (1, 4)) /\
    path ["recordTarget"; "patientRole"; "patient"; "administrativeGenderCode"; "@_code"] doc =
      Some JUndefined /\
    path ["recordTarget"; "patientRole"; "patient"; "raceCode"; "@_code"] doc =
      Some (JString "2106-3").
Proof.
  split; [reflexivity|].
  destruct (subject_codes_copied_or_fixed
              (oids := oids) (qrdaOids := qrdaOids) (collab := collaborators)
              bundleWithJohn minimalOptions w0 (p := john) eq_refl eq_refl)
    as (doc & Hrun & _ & Hgender & Hrace & _).
  exists doc. auto.
Defined.

Lemma authoring_device_witness :
  findResource bundleWithPatient "Patient" = Some jane /\
  accepted minimalOptions = true /\
  exists doc,
    run bundleWithPatient minimalOptions = (Normal doc, (1, 4)) /\
    path ["author"; "assignedAuthor"; "assignedAuthoringDevice"] doc =
      Some (JObject ["manufacturerModelName" :-> "Medplum Test System";
                     "softwareName" :-> "Medplum Test System"]).
Proof.
  split; [reflexivity|]. split; [reflexivity|].
  destruct (authoring_device_named_after_author
              (oids := oids) (qrdaOids := qrdaOids) (collab := collaborators)
              bundleWithPatient minimalOptions w0 (p := jane) eq_refl eq_refl)
    as (doc & authorName & Hrun & Hdevice & _ & Hdefault).
  exists doc. split; [exact Hrun|].
  rewrite Hdevice, (Hdefault (or_introl eq_refl)). reflexivity.
Defined.

Lemma document_keys_witness :
  findResource bundleWithJohn "Patient" = Some john /\
  exists doc,
    run bundleWithJohn minimalOptions = (Normal doc, (1, 4)) /\
    length (keys doc) = 16.
Proof.
  split; [reflexivity|].
  destruct (document_keys_are_fixed
              (oids := oids) (qrdaOids := qrdaOids) (collab := collaborators)
              bundleWithJohn minimalOptions w0 (p := john) eq_refl eq_refl)
    as (doc & Hrun & Hkeys & _).
  exists doc. split; [exact Hrun|]. rewrite Hkeys. reflexivity.
Defined.

End SampleRuns.
